(** * excel_combiner: the table-region detector and the batch combiner

    A shallow embedding of [excel_combiner.py].  Python strings are UTF-8
    byte strings, exceptions are an error monad, a pandas DataFrame is a
    list of column labels over a list of rows, and console output and the
    final [to_excel] call are a trace of events. *)

From Stdlib Require Import String Ascii Bool Arith PeanoNat Lia List.
From Stdlib Require Import Decimal DecimalString.
From Stdlib Require DecimalNat DecimalFacts.
Import ListNotations.
Open Scope list_scope.
Open Scope string_scope.
Open Scope nat_scope.

(** ** Python strings *)

Module PyStr.

Definition bytes (l : list nat) : string :=
  string_of_list_ascii (map ascii_of_nat l).

(** The code points [str.strip] removes, in UTF-8: U+0009..U+000D,
    U+001C..U+0020, U+0085, U+00A0, U+1680, U+2000..U+200A, U+2028, U+2029,
    U+202F, U+205F and U+3000. *)
Definition whitespace : list string :=
  map bytes
    [ [9]; [10]; [11]; [12]; [13]; [28]; [29]; [30]; [31]; [32];
      [194; 133]; [194; 160]; [225; 154; 128];
      [226; 128; 128]; [226; 128; 129]; [226; 128; 130]; [226; 128; 131];
      [226; 128; 132]; [226; 128; 133]; [226; 128; 134]; [226; 128; 135];
      [226; 128; 136]; [226; 128; 137]; [226; 128; 138];
      [226; 128; 168]; [226; 128; 169]; [226; 128; 175];
      [226; 129; 159]; [227; 128; 128] ].

Fixpoint rev_acc (s acc : string) : string :=
  match s with
  | EmptyString => acc
  | String a s' => rev_acc s' (String a acc)
  end.

Definition reverse (s : string) : string := rev_acc s EmptyString.

Fixpoint drop (n : nat) (s : string) : string :=
  match n, s with
  | S n', String _ s' => drop n' s'
  | _, _ => s
  end.

(** One leading occurrence of a member of [seqs] removed, if there is one. *)
Fixpoint drop_one (seqs : list string) (s : string) : option string :=
  match seqs with
  | [] => None
  | w :: seqs' =>
      if prefix w s then Some (drop (String.length w) s) else drop_one seqs' s
  end.

Fixpoint drop_all (fuel : nat) (seqs : list string) (s : string) : string :=
  match fuel with
  | 0 => s
  | S fuel' =>
      match drop_one seqs s with
      | Some s' => drop_all fuel' seqs s'
      | None => s
      end
  end.

Definition lstrip (s : string) : string :=
  drop_all (String.length s) whitespace s.

Definition rstrip (s : string) : string :=
  reverse (drop_all (String.length s) (map reverse whitespace) (reverse s)).

(** [s.strip()] *)
Definition strip (s : string) : string := rstrip (lstrip s).

Definition lower_char (a : ascii) : ascii :=
  let n := nat_of_ascii a in
  if (65 <=? n) && (n <=? 90) then ascii_of_nat (n + 32) else a.

(** [s.lower()].  Only A..Z are mapped.  The source lowers a cell only to
    look for the words total, summary and nan, and no character outside
    ASCII lowers to a letter of those words, so the tests are unaffected. *)
Fixpoint lower (s : string) : string :=
  match s with
  | EmptyString => EmptyString
  | String a s' => String (lower_char a) (lower s')
  end.

(** [s.replace(old, new)] for a pattern [old] of one character. *)
Fixpoint replace (old : ascii) (new : string) (s : string) : string :=
  match s with
  | EmptyString => EmptyString
  | String a s' =>
      if Ascii.eqb a old then new ++ replace old new s'
      else String a (replace old new s')
  end.

(** [sub in s] *)
Fixpoint contains (sub s : string) : bool :=
  prefix sub s ||
  match s with
  | EmptyString => false
  | String _ s' => contains sub s'
  end.

(** [s.endswith(suffix)] *)
Definition endswith (s suffix : string) : bool :=
  prefix (reverse suffix) (reverse s).

(** [s.startswith(p)] *)
Definition startswith (s p : string) : bool := prefix p s.

(** [str(n)] for a non-negative integer. *)
Definition of_nat (n : nat) : string := NilZero.string_of_uint (Nat.to_uint n).

(** A number printed in at least [width] digits, as [strftime] prints the
    month and the day. *)
Definition zfill (width : nat) (s : string) : string :=
  string_of_list_ascii (repeat "0"%char (width - String.length s)) ++ s.

End PyStr.

(** ** Exceptions *)

Inductive exn : Type :=
| TypeError (msg : string)
| IndexError (msg : string)
| ValueError (msg : string)
| KeyError (msg : string)
| InvalidIndexError (msg : string)
| OtherError (msg : string).

(** [str(e)] *)
Definition exn_str (e : exn) : string :=
  match e with
  | TypeError m | IndexError m | ValueError m | InvalidIndexError m
  | OtherError m => m
  | KeyError m => "'" ++ m ++ "'"
  end.

Inductive result (A : Type) : Type :=
| Ok (a : A)
| Raise (e : exn).
Arguments Ok {A} a.
Arguments Raise {A} e.

Definition bind {A B} (m : result A) (k : A -> result B) : result B :=
  match m with
  | Ok a => k a
  | Raise e => Raise e
  end.

Notation "x <- m ;; k" := (bind m (fun x => k))
  (at level 61, m at next level, right associativity).

(** [for i in range(lo, lo + n): ...] whose body either returns from the
    enclosing function ([Some v]) or falls through to the next iteration
    ([None]); the loop yields [None] when it runs to its end. *)
Fixpoint for_range {A} (body : nat -> result (option A)) (lo n : nat)
  : result (option A) :=
  match n with
  | 0 => Ok None
  | S n' =>
      r <- body lo ;;
      match r with
      | Some v => Ok (Some v)
      | None => for_range body (S lo) n'
      end
  end.

(** ** The pandas model *)

Module Pd.

(** A cell of a frame: a missing value, text, an integer, or the float
    that equals an integer, which is what [pd.concat] makes of an integer
    it stores in a float64 column.  The script reads the cells of a sheet
    through [str(cell)] and the missing-value test only, so any other float
    of a sheet, or a timestamp, behaves as the [Str] of its printed form. *)
Inductive cell : Type :=
| NaN
| Str (s : string)
| Int (n : nat)
| Float (n : nat).

(** [str(cell)]; a float prints with its fraction digit (in exponent form
    from 1e16 on, which is left out here). *)
Definition str (c : cell) : string :=
  match c with
  | NaN => "nan"
  | Str s => s
  | Int n => PyStr.of_nat n
  | Float n => PyStr.of_nat n ++ ".0"
  end.

(** [pd.isna(cell)] *)
Definition isna (c : cell) : bool :=
  match c with
  | NaN => true
  | _ => false
  end.

(** A column label: a position for a sheet read with [header=None], text
    once [columns] has been assigned. *)
Inductive label : Type :=
| LInt (n : nat)
| LStr (s : string).

Definition label_eqb (a b : label) : bool :=
  match a, b with
  | LInt n, LInt m => Nat.eqb n m
  | LStr s, LStr t => String.eqb s t
  | _, _ => false
  end.

Record DataFrame : Type := mkDataFrame {
  columns : list label;
  values : list (list cell)
}.

(** Every row has one cell per column. *)
Definition rectangular (df : DataFrame) : Prop :=
  Forall (fun row => length row = length (columns df)) (values df).

(** [len(df)] *)
Definition len (df : DataFrame) : nat := length (values df).

Definition at_ (df : DataFrame) (r c : nat) : option cell :=
  match nth_error (values df) r with
  | Some row => nth_error row c
  | None => None
  end.

(** [df.iloc[r, c]] *)
Definition iloc (df : DataFrame) (r c : nat) : result cell :=
  match at_ df r c with
  | Some v => Ok v
  | None => Raise (IndexError "index out of bounds")
  end.

(** [xs[lo:hi]] *)
Definition slice {A} (lo hi : nat) (xs : list A) : list A :=
  firstn (hi - lo) (skipn lo xs).

(** [df.iloc[r, lo:hi]] *)
Definition iloc_row (df : DataFrame) (r lo hi : nat) : result (list cell) :=
  match nth_error (values df) r with
  | Some row => Ok (slice lo hi row)
  | None => Raise (IndexError "single positional indexer is out-of-bounds")
  end.

(** [xs[lo:hi]] where [hi] may be [None]. *)
Definition slice_to {A} (lo : nat) (hi : option nat) (xs : list A) : list A :=
  match hi with
  | Some hi => slice lo hi xs
  | None => skipn lo xs
  end.

(** [df.iloc[r0:r1, c0:c1]] where [r1] may be [None]. *)
Definition iloc_block (df : DataFrame) (r0 : nat) (r1 : option nat)
  (c0 c1 : nat) : DataFrame :=
  {| columns := slice c0 c1 (columns df);
     values := map (slice c0 c1) (slice_to r0 r1 (values df)) |}.

(** [df.columns = labels] *)
Definition set_columns (df : DataFrame) (labels : list string)
  : result DataFrame :=
  if length labels =? length (columns df)
  then Ok {| columns := map LStr labels; values := values df |}
  else Raise (ValueError "Length mismatch").

(** [df.dropna(how='all')] *)
Definition dropna_all (df : DataFrame) : DataFrame :=
  {| columns := columns df;
     values := filter (fun row => negb (forallb isna row)) (values df) |}.

(** [df.astype(str).apply(lambda x: x.str.strip().eq('').all(), axis=1)],
    at one row. *)
Definition all_empty_text (row : list cell) : bool :=
  forallb (fun c => String.eqb (PyStr.strip (str c)) "") row.

(** [df[~mask]] for the mask of [all_empty_text]. *)
Definition drop_empty_text (df : DataFrame) : DataFrame :=
  {| columns := columns df;
     values := filter (fun row => negb (all_empty_text row)) (values df) |}.

Definition has_label (l : label) (ls : list label) : bool :=
  existsb (label_eqb l) ls.

Fixpoint set_at (cols : list label) (l : label) (v : cell) (row : list cell)
  : list cell :=
  match cols, row with
  | c :: cols', x :: row' =>
      (if label_eqb c l then v else x) :: set_at cols' l v row'
  | _, _ => row
  end.

(** [df[l] = v] for a scalar [v]: the column is overwritten where the label
    exists and added on the right where it does not. *)
Definition setitem (df : DataFrame) (l : label) (v : cell) : DataFrame :=
  if has_label l (columns df)
  then {| columns := columns df;
          values := map (set_at (columns df) l v) (values df) |}
  else {| columns := (columns df ++ [l])%list;
          values := map (fun row => (row ++ [v])%list) (values df) |}.

(** The positions of a label among the columns. *)
Fixpoint positions_from (i : nat) (l : label) (cols : list label) : list nat :=
  match cols with
  | [] => []
  | c :: cols' =>
      ((if label_eqb c l then [i] else []) ++ positions_from (S i) l cols')%list
  end.

Definition positions (l : label) (cols : list label) : list nat :=
  positions_from 0 l cols.

(** The labels of [new] that [acc] lacks, added on the right in their own
    order. *)
Fixpoint union_labels (acc new : list label) : list label :=
  match new with
  | [] => acc
  | l :: new' =>
      union_labels (if has_label l acc then acc else (acc ++ [l])%list) new'
  end.

Fixpoint has_duplicates (ls : list label) : bool :=
  match ls with
  | [] => false
  | l :: ls' => has_label l ls' || has_duplicates ls'
  end.

Definition labels_eqb (a b : list label) : bool :=
  (length a =? length b) &&
  forallb (fun p => label_eqb (fst p) (snd p)) (combine a b).

(** One row of a frame laid out on the columns [target]; a label the frame
    lacks gives a missing value. *)
Definition reindex_row (cols target : list label) (row : list cell)
  : list cell :=
  map (fun l => match positions l cols with
                | i :: _ => nth i row NaN
                | [] => NaN
                end) target.

(** Whether [pd.concat] stores a column of its result as float64 is
    decided inside pandas, from the dtypes of the frames' columns, which a
    frame of this model does not carry: [float_column frames j] is that
    decision for column [j] of the result.  Pandas takes it, for one, for a
    column of integers that has to hold a missing value for a frame that
    lacks the column. *)
Class ConcatTypes : Type := {
  float_column : list DataFrame -> nat -> bool
}.

(** A cell moved to a float64 column. *)
Definition as_float (c : cell) : cell :=
  match c with
  | Int n => Float n
  | _ => c
  end.

(** A row whose cells, counted from [j], move to the columns of the result
    that are float64. *)
Fixpoint retype_from (j : nat) (floats : nat -> bool) (row : list cell)
  : list cell :=
  match row with
  | [] => []
  | c :: row' =>
      (if floats j then as_float c else c) :: retype_from (S j) floats row'
  end.

Definition retype_row (floats : nat -> bool) (row : list cell) : list cell :=
  retype_from 0 floats row.

(** [pd.concat(frames, ignore_index=True)]: the rows of the frames one
    after the other, on the union of their columns in order of first
    appearance.  Frames that all carry the same columns are stacked as they
    are; otherwise pandas aligns them by label, and refuses a frame whose
    labels repeat.  Each column of the result gets its own type, and an
    integer in a column typed float64 becomes a float. *)
Definition concat `{ConcatTypes} (frames : list DataFrame)
  : result DataFrame :=
  match frames with
  | [] => Raise (ValueError "No objects to concatenate")
  | f :: rest =>
      if forallb (fun g => labels_eqb (columns g) (columns f)) rest
      then Ok {| columns := columns f;
                 values := map (retype_row (float_column frames))
                               (flat_map values frames) |}
      else if existsb (fun g => has_duplicates (columns g)) frames
      then Raise (InvalidIndexError
                    "Reindexing only valid with uniquely valued Index objects")
      else
        let cols := fold_left union_labels (map columns frames) [] in
        Ok {| columns := cols;
              values :=
                map (retype_row (float_column frames))
                    (flat_map (fun g => map (reindex_row (columns g) cols)
                                            (values g)) frames) |}
  end.

Definition label_str (l : label) : string :=
  match l with
  | LInt n => PyStr.of_nat n
  | LStr s => s
  end.

Fixpoint getitem_positions (cols : list label) (keys : list label)
  : result (list nat) :=
  match keys with
  | [] => Ok []
  | k :: keys' =>
      match positions k cols with
      | [] => Raise (KeyError (label_str k))
      | ps => rest <- getitem_positions cols keys' ;; Ok (ps ++ rest)%list
      end
  end.

(** [df[keys]] for a list of labels: every column carrying each label, in
    the order of [keys]; a label the frame lacks raises [KeyError]. *)
Definition getitem (df : DataFrame) (keys : list label) : result DataFrame :=
  ps <- getitem_positions (columns df) keys ;;
  Ok {| columns := map (fun i => nth i (columns df) (LInt 0)) ps;
        values := map (fun row => map (fun i => nth i row NaN) ps)
                      (values df) |}.

End Pd.

Import Pd.

(** ** The date parser *)

Record datetime : Type := mkDate {
  year : nat;
  month : nat;
  day : nat
}.

(** [dt.strftime('%Y-%m-%d')] as the C library of Linux formats it: the
    year in as many digits as it has, month and day in two.  (Other C
    libraries pad a year below 1000 to four digits.) *)
Definition strftime_ymd (dt : datetime) : string :=
  PyStr.of_nat (year dt) ++ "-" ++
  PyStr.zfill 2 (PyStr.of_nat (month dt)) ++ "-" ++
  PyStr.zfill 2 (PyStr.of_nat (day dt)).

(** [dateutil.parser.parse(text, dayfirst=...)], the library the script
    imports: it yields a date or raises.  An instance is the library on the
    day of one run; the script passes it no default date. *)
Class Dateutil : Type := {
  parser_parse : string -> bool -> result datetime
}.

(** The fields of a date that a text names.  The library's documentation
    has [parser.parse] put them in place of those of its default, which is
    the day of the run when the caller passes none. *)
Record fields : Type := mkFields {
  given_year : option nat;
  given_month : option nat;
  given_day : option nat
}.

Definition fill (today : datetime) (f : fields) : datetime :=
  {| year := match given_year f with Some y => y | None => year today end;
     month := match given_month f with Some m => m | None => month today end;
     day := match given_day f with Some d => d | None => day today end |}.

(** ** The workbooks on disk *)

(** A file of the folder: its name, and what opening it yields, either an
    exception or its sheets in the order the library reports them, each
    with what [read_excel] yields for it. *)
Record ExcelFile : Type := mkFile {
  name : string;
  workbook : result (list (string * result DataFrame))
}.

Record Folder : Type := mkFolder {
  folder_path : string;
  listing : list ExcelFile
}.

Fixpoint lookup_sheet (sheet_name : string)
  (sheets : list (string * result DataFrame)) : result DataFrame :=
  match sheets with
  | [] => Raise (ValueError ("Worksheet named '" ++ sheet_name ++ "' not found"))
  | (n, df) :: sheets' =>
      if String.eqb n sheet_name then df else lookup_sheet sheet_name sheets'
  end.

(** [pd.read_excel(file_path, sheet_name=sheet_name, header=None)] *)
Definition read_excel (file_path : ExcelFile) (sheet_name : string)
  : result DataFrame :=
  sheets <- workbook file_path ;;
  lookup_sheet sheet_name sheets.

(** [Path(folder_path).glob('*' + suffix)] *)
Definition glob (folder : Folder) (suffix : string) : list ExcelFile :=
  filter (fun f => PyStr.endswith (name f) suffix) (listing folder).

(** [os.path.join(a, b)] *)
Definition path_join (a b : string) : string :=
  if PyStr.startswith b "/" then b
  else if String.eqb a "" || PyStr.endswith a "/" then a ++ b
  else a ++ "/" ++ b.

(** ** The script *)

Definition newline : string := PyStr.bytes [10].

(** [a >= b] where [b] may be [None]. *)
Definition py_ge (a : nat) (b : option nat) : result bool :=
  match b with
  | Some b => Ok (b <=? a)
  | None =>
      Raise (TypeError
        "'>=' not supported between instances of 'int' and 'NoneType'")
  end.

Section Script.

Context `{Dateutil} `{ConcatTypes}.

Definition convert_sheet_name_to_date (sheet_name : string) : string :=
  let sheet_name := PyStr.strip sheet_name in
  let sheet_name := PyStr.replace "." "-" sheet_name in
  match parser_parse sheet_name true with
  | Ok parsed_date => strftime_ymd parsed_date
  | Raise _ => "PARSE_ERROR: " ++ sheet_name
  end.

(** The pair [(row_idx, col_idx)], or [None] for [(None, None)]. *)
Definition find_header_row (df : DataFrame) : result (option (nat * nat)) :=
  for_range (fun row_idx =>
    for_range (fun col_idx =>
      v <- iloc df row_idx col_idx ;;
      let cell_value := PyStr.strip (str v) in
      if String.eqb cell_value "Sl. No." then Ok (Some (row_idx, col_idx))
      else Ok None)
      0 (length (columns df)))
    0 (Nat.min 20 (len df)).

Definition find_total_row (df : DataFrame) (start_row start_col end_col : nat)
  : result (option nat) :=
  for_range (fun idx =>
    for_range (fun col_idx =>
      v <- iloc df idx col_idx ;;
      let cell_value := PyStr.lower (PyStr.strip (str v)) in
      let cell_value_cleaned :=
        PyStr.replace "=" "" (PyStr.replace " " "" cell_value) in
      if PyStr.contains "total" cell_value_cleaned
         || PyStr.contains "summary" cell_value_cleaned
      then Ok (Some idx)
      else Ok None)
      start_col (end_col + 1 - start_col))
    (start_row + 1) (len df - (start_row + 1)).

(** The inner loop of [find_last_data_row]: [Some tt] when it breaks with
    [row_has_data = True]. *)
Definition row_has_data (df : DataFrame) (idx start_col end_col : nat)
  : result (option unit) :=
  for_range (fun col_idx =>
    v <- iloc df idx col_idx ;;
    let cell_value := PyStr.strip (str v) in
    if negb (String.eqb cell_value "")
       && negb (String.eqb (PyStr.lower cell_value) "nan")
    then Ok (Some tt)
    else Ok None)
    start_col (end_col + 1 - start_col).

(** The outer loop of [find_last_data_row] over [range(idx, idx + n)],
    carrying [last_data_row]. *)
Fixpoint last_data_loop (df : DataFrame) (start_col end_col : nat)
  (idx n : nat) (last_data_row : option nat) : result (option nat) :=
  match n with
  | 0 => Ok last_data_row
  | S n' =>
      has <- row_has_data df idx start_col end_col ;;
      match has with
      | Some _ => last_data_loop df start_col end_col (S idx) n' (Some idx)
      | None =>
          match last_data_row with
          | Some _ => Ok last_data_row
          | None => last_data_loop df start_col end_col (S idx) n' None
          end
      end
  end.

Definition find_last_data_row (df : DataFrame)
  (start_row start_col end_col : nat) : result (option nat) :=
  last_data_loop df start_col end_col
    (start_row + 1) (len df - (start_row + 1)) None.

(** The search for the ['Sample'] column along the header row. *)
Definition find_end_col (df : DataFrame) (header_row start_col : nat)
  : result (option nat) :=
  for_range (fun col_idx =>
    v <- iloc df header_row col_idx ;;
    let cell_value := PyStr.strip (str v) in
    if String.eqb cell_value "Sample" then Ok (Some col_idx) else Ok None)
    start_col (length (columns df) - start_col).

(** The body of the [try] of [process_sheet]: the line it prints and the
    value it returns. *)
Definition process_sheet_try (file_path : ExcelFile) (sheet_name : string)
  : result (string * option DataFrame) :=
  df <- read_excel file_path sheet_name ;;
  hdr <- find_header_row df ;;
  match hdr with
  | None => Ok ("    ⚠ Skipped: 'Sl. No.' not found", None)
  | Some (header_row, start_col) =>
  end_col <- find_end_col df header_row start_col ;;
  match end_col with
  | None => Ok ("    ⚠ Skipped: 'Sample' column not found", None)
  | Some end_col =>
  total_row <- find_total_row df header_row start_col end_col ;;
  ending <-
    match total_row with
    | None =>
        last_data_row <- find_last_data_row df header_row start_col end_col ;;
        match last_data_row with
        | None => Ok None
        | Some last_data_row =>
            Ok (Some (Some (last_data_row + 1), "last data row"))
        end
    | Some total_row =>
        Ok (Some (Some total_row,
                  "Total/Summary at row " ++ PyStr.of_nat (total_row + 1)))
    end ;;
  match ending with
  | None =>
      Ok ("    ⚠ Skipped: Could not determine end of data (no 'Total'/'Summary' and no data rows)",
          None)
  | Some (data_end, end_marker) =>
  let data_start := header_row + 1 in
  let data_end := total_row in
  no_rows <- py_ge data_start data_end ;;
  if no_rows
  then Ok ("    ⚠ Skipped: No data rows found between header and Total", None)
  else
  header_cells <- iloc_row df header_row start_col (end_col + 1) ;;
  let headers := map (fun v => PyStr.strip (str v)) header_cells in
  let data_df :=
    iloc_block df data_start data_end start_col (end_col + 1) in
  data_df <- set_columns data_df headers ;;
  let initial_row_count := len data_df in
  let data_df := dropna_all data_df in
  let data_df := drop_empty_text data_df in
  let rows_removed := initial_row_count - len data_df in
  if len data_df =? 0
  then Ok ("    ⚠ Skipped: All data rows were blank", None)
  else
  let data_df := setitem data_df (LStr "Source_File") (Str (name file_path)) in
  let data_df := setitem data_df (LStr "Sheet_Name") (Str sheet_name) in
  let data_df :=
    setitem data_df (LStr "Date")
      (Str (convert_sheet_name_to_date sheet_name)) in
  let blank_info :=
    if 0 <? rows_removed
    then ", " ++ PyStr.of_nat rows_removed ++ " blank row(s) removed"
    else "" in
  Ok ("    ✓ Extracted " ++ PyStr.of_nat (len data_df) ++
      " rows (Header at row " ++ PyStr.of_nat (header_row + 1) ++ ", " ++
      end_marker ++ blank_info ++ ")",
      Some data_df)
  end end end.

(** [process_sheet]: the line printed and the frame returned, [None] for a
    sheet that is skipped. *)
Definition process_sheet (file_path : ExcelFile) (sheet_name : string)
  : string * option DataFrame :=
  match process_sheet_try file_path sheet_name with
  | Ok r => r
  | Raise e => ("    ✗ Error: " ++ exn_str e, None)
  end.

(** What a run does, in order. *)
Inductive event : Type :=
| Print (line : string)
| ToExcel (path : string) (df : DataFrame)
| Uncaught (e : exn).

Record state : Type := mkState {
  out : list event;
  all_dataframes : list DataFrame
}.

Definition print (st : state) (line : string) : state :=
  {| out := (out st ++ [Print line])%list;
     all_dataframes := all_dataframes st |}.

Definition append_frame (st : state) (df : DataFrame) : state :=
  {| out := out st;
     all_dataframes := (all_dataframes st ++ [df])%list |}.

(** One turn of the loop over the sheets of a file. *)
Definition sheet_step (file_path : ExcelFile) (st : state)
  (sheet_name : string) : state :=
  let st := print st ("  Sheet: '" ++ sheet_name ++ "'") in
  let r := process_sheet file_path sheet_name in
  let st := print st (fst r) in
  match snd r with
  | Some sheet_df => append_frame st sheet_df
  | None => st
  end.

(** One turn of the loop over the files. *)
Definition file_step (st : state) (file_path : ExcelFile) : state :=
  let st := print st ("Processing: " ++ name file_path) in
  match workbook file_path with
  | Raise e => print st ("  ✗ Error reading file: " ++ exn_str e)
  | Ok sheets =>
      let sheet_names := map fst sheets in
      let st :=
        print st ("  Found " ++ PyStr.of_nat (length sheet_names) ++
                  " sheet(s)") in
      let st := fold_left (sheet_step file_path) sheet_names st in
      print st ""
  end.

Definition metadata_cols : list label :=
  [LStr "Source_File"; LStr "Sheet_Name"; LStr "Date"].

(** [pd.concat] and the reordering that puts the metadata last. *)
Definition combine_frames (frames : list DataFrame) : result DataFrame :=
  combined_df <- concat frames ;;
  let cols := columns combined_df in
  let data_cols :=
    filter (fun col => negb (has_label col metadata_cols)) cols in
  getitem combined_df (data_cols ++ metadata_cols)%list.

Definition rule : string :=
  string_of_list_ascii (repeat "="%char 60).

Definition combine_excel_files (folder : Folder) (output_file : string)
  : list event :=
  let excel_files := (glob folder ".xls" ++ glob folder ".xlsx")%list in
  match excel_files with
  | [] => [Print ("No Excel files found in " ++ folder_path folder)]
  | _ =>
  let st := {| out := []; all_dataframes := [] |} in
  let st :=
    print st ("Found " ++ PyStr.of_nat (length excel_files) ++
              " Excel file(s)" ++ newline) in
  let st := fold_left file_step excel_files st in
  match all_dataframes st with
  | [] => out (print st "No valid data found to combine")
  | _ =>
  let st := print st "Combining all valid sheets..." in
  match combine_frames (all_dataframes st) with
  | Raise e => (out st ++ [Uncaught e])%list
  | Ok combined_df =>
      let output_path := path_join (folder_path folder) output_file in
      (out st ++
       [ ToExcel output_path combined_df;
         Print (newline ++ rule);
         Print ("✓ Successfully combined " ++
                PyStr.of_nat (length (all_dataframes st)) ++ " sheet(s)");
         Print ("✓ Total rows: " ++ PyStr.of_nat (len combined_df));
         Print ("✓ Output saved to: " ++ output_path);
         Print rule ])%list
  end end end.

End Script.

(** ** The entry point *)

(** What the terminal sees: an event of a run, or the prompt of an
    [input(...)] call. *)
Inductive console : Type :=
| Say (ev : event)
| Ask (prompt : string).

Section Main.

Context `{Dateutil} `{ConcatTypes}.

(** The [__main__] block.  [path_exists] is [os.path.exists], [disk] gives
    the entries of a directory (none for a path that is no directory), and
    [typed_folder] and [typed_name] are the two lines the user types; the
    second is read only when the folder exists. *)
Definition main (path_exists : string -> bool)
  (disk : string -> list ExcelFile) (typed_folder typed_name : string)
  : list console :=
  Say (Print "Excel Files Combiner - All Sheets with Dynamic Header Detection")
  :: Say (Print rule)
  :: Ask (newline ++ "Enter the folder path containing Excel files: ")
  :: let folder := PyStr.strip typed_folder in
     if path_exists folder
     then
       Ask "Enter output filename (press Enter for 'combined_output.xlsx'): "
       :: let output_name := PyStr.strip typed_name in
          let output_name :=
            if String.eqb output_name "" then "combined_output.xlsx"
            else if negb (PyStr.endswith output_name ".xlsx")
                 then output_name ++ ".xlsx"
                 else output_name in
          Say (Print "")
          :: map Say
               (combine_excel_files
                  {| folder_path := folder; listing := disk folder |}
                  output_name)
     else [Say (Print ("Error: Folder '" ++ folder ++ "' does not exist"))].

End Main.

(** ** A date parser for the examples *)

Module Dmy.

Definition digit (a : ascii) : option nat :=
  let n := nat_of_ascii a in
  if (48 <=? n) && (n <=? 57) then Some (n - 48) else None.

Fixpoint number_from (acc : nat) (s : string) : option nat :=
  match s with
  | EmptyString => Some acc
  | String a s' =>
      match digit a with
      | Some d => number_from (10 * acc + d) s'
      | None => None
      end
  end.

Definition number (s : string) : option nat :=
  match s with
  | EmptyString => None
  | _ => number_from 0 s
  end.

(** [s.split(sep)] *)
Fixpoint split (sep : ascii) (s : string) : list string :=
  match s with
  | EmptyString => [EmptyString]
  | String a s' =>
      if Ascii.eqb a sep then EmptyString :: split sep s'
      else match split sep s' with
           | w :: ws => String a w :: ws
           | [] => [String a EmptyString]
           end
  end.

(** Three numbers separated by hyphens, read day-month-year or
    month-day-year; a year below 100 is of this century. *)
Definition parse (text : string) (dayfirst : bool) : result datetime :=
  match map number (split "-" text) with
  | [Some a; Some b; Some y] =>
      let d := if dayfirst then a else b in
      let m := if dayfirst then b else a in
      if (1 <=? d) && (d <=? 31) && (1 <=? m) && (m <=? 12)
      then Ok {| year := if y <? 100 then 2000 + y else y;
                 month := m; day := d |}
      else Raise (ValueError "day or month is out of range")
  | _ => Raise (ValueError ("Unknown string format: " ++ text))
  end.

(** The same parser on a given day: a lone number is a day of that day's
    month and year. *)
Definition parse_on (today : datetime) (text : string) (dayfirst : bool)
  : result datetime :=
  match map number (split "-" text) with
  | [Some d] =>
      if (1 <=? d) && (d <=? 31)
      then Ok (fill today {| given_year := None; given_month := None;
                             given_day := Some d |})
      else Raise (ValueError "day is out of range for month")
  | _ => parse text dayfirst
  end.

End Dmy.

#[export] Instance dmy_parser : Dateutil := {| parser_parse := Dmy.parse |}.

Definition dmy_on (today : datetime) : Dateutil :=
  {| parser_parse := Dmy.parse_on today |}.

(** ** Column types for the examples *)

(** Every column of the sample sheets holds text, its header at least, so
    pandas types each column of their tables as object and stores none of
    a concatenation as float64. *)
#[export] Instance object_columns : ConcatTypes :=
  {| float_column := fun _ _ => false |}.

(** ** Notions used in the statements *)

(** The test of [find_total_row] on one cell. *)
Definition terminator_text (v : cell) : bool :=
  let cleaned :=
    PyStr.replace "=" "" (PyStr.replace " " ""
      (PyStr.lower (PyStr.strip (str v)))) in
  PyStr.contains "total" cleaned || PyStr.contains "summary" cleaned.

(** The test of [find_last_data_row] on one cell. *)
Definition data_text (v : cell) : bool :=
  let cell_value := PyStr.strip (str v) in
  negb (String.eqb cell_value "")
  && negb (String.eqb (PyStr.lower cell_value) "nan").

(** The test of [find_header_row] on one cell. *)
Definition header_marker (v : cell) : bool :=
  String.eqb (PyStr.strip (str v)) "Sl. No.".

(** The test of the search for the end column on one cell. *)
Definition end_marker_text (v : cell) : bool :=
  String.eqb (PyStr.strip (str v)) "Sample".

(** The shape of every loop body of the locators: read one cell, return
    [ret] if it passes [test], go on otherwise. *)
Definition probe {A} (df : DataFrame) (test : cell -> bool) (r c : nat)
  (ret : A) : result (option A) :=
  v <- iloc df r c ;;
  if test v then Ok (Some ret) else Ok None.

(** A row the blank-row filter of [process_sheet] removes: all its cells are
    missing, or all are empty once trimmed. *)
Definition fully_blank (row : list cell) : bool :=
  forallb isna row || all_empty_text row.

(** A blank cell as the specification counts it: a missing value, or text
    that is empty once trimmed. *)
Definition blank_cell (v : cell) : bool :=
  isna v || String.eqb (PyStr.strip (str v)) "".

(** A fully blank row as the specification counts it: every cell is
    blank. *)
Definition every_cell_blank (row : list cell) : bool :=
  forallb blank_cell row.


(** The cell of a row under a label; a missing value when the columns of
    the row have no such label. *)
Fixpoint value_at (cols : list label) (row : list cell) (l : label) : cell :=
  match cols, row with
  | c :: cols', x :: row' =>
      if label_eqb c l then x else value_at cols' row' l
  | _, _ => NaN
  end.

(** What [setitem] does to one row. *)
Definition set_row (cols : list label) (l : label) (v : cell)
  (row : list cell) : list cell :=
  if has_label l cols then set_at cols l v row else (row ++ [v])%list.




(** A table the sheet extractor returns for a sheet that [read_excel]
    gives with every row complete. *)
Definition extracted `{Dateutil} (file_path : ExcelFile) (sheet_name : string)
  (table : DataFrame) : Prop :=
  exists df,
    read_excel file_path sheet_name = Ok df
    /\ rectangular df
    /\ snd (process_sheet file_path sheet_name) = Some table.


(** The tables one file contributes: none when it cannot be opened,
    otherwise what [process_sheet] returns for its sheets, in order. *)
Definition tables_of_file `{Dateutil} (file_path : ExcelFile)
  : list DataFrame :=
  match workbook file_path with
  | Raise _ => []
  | Ok sheets =>
      flat_map (fun sheet_name =>
                  match snd (process_sheet file_path sheet_name) with
                  | Some sheet_df => [sheet_df]
                  | None => []
                  end)
               (map fst sheets)
  end.

(** The lines one file puts on the console. *)
Definition log_of_file `{Dateutil} (file_path : ExcelFile) : list event :=
  Print ("Processing: " ++ name file_path) ::
  match workbook file_path with
  | Raise e => [Print ("  ✗ Error reading file: " ++ exn_str e)]
  | Ok sheets =>
      (Print ("  Found " ++ PyStr.of_nat (length sheets) ++ " sheet(s)") ::
       flat_map (fun sheet_name =>
                   [ Print ("  Sheet: '" ++ sheet_name ++ "'");
                     Print (fst (process_sheet file_path sheet_name)) ])
                (map fst sheets)
       ++ [Print ""])%list
  end.

(** The files a run works through, in order. *)
Definition excel_files (folder : Folder) : list ExcelFile :=
  (glob folder ".xls" ++ glob folder ".xlsx")%list.

(** The tables a run collects. *)
Definition tables_of_folder `{Dateutil} (folder : Folder) : list DataFrame :=
  flat_map tables_of_file (excel_files folder).

(** The first line of a run that found files. *)
Definition found_line (folder : Folder) : event :=
  Print ("Found " ++ PyStr.of_nat (length (excel_files folder)) ++
         " Excel file(s)" ++ newline).

(** A string without a dot or a hyphen. *)
Fixpoint plain (w : string) : bool :=
  match w with
  | EmptyString => true
  | String a w' =>
      negb (Ascii.eqb a ".") && negb (Ascii.eqb a "-") && plain w'
  end.

(** A file that opens as a workbook. *)
Definition readable (file_path : ExcelFile) : bool :=
  match workbook file_path with
  | Ok _ => true
  | Raise _ => false
  end.

(** The folder without the files that do not open. *)
Definition without_unreadable (folder : Folder) : Folder :=
  {| folder_path := folder_path folder;
     listing := filter readable (listing folder) |}.

Definition is_print (ev : event) : Prop :=
  match ev with
  | Print _ => True
  | _ => False
  end.

(** Row [r] has a cell with data in the columns [lo..hi], as
    [find_last_data_row] tests it. *)
Definition has_data (df : DataFrame) (r lo hi : nat) : Prop :=
  exists c v, lo <= c <= hi /\ at_ df r c = Some v /\ data_text v = true.

(** The columns [lo..hi] of every row. *)
Definition span (lo hi : nat) (df : DataFrame) : list (list cell) :=
  map (slice lo (hi + 1)) (values df).

(** ** Sample sheets *)

Module Sample.

(** A sheet as [read_excel] returns it with [header=None]. *)
Definition raw (width : nat) (rows : list (list cell)) : DataFrame :=
  {| columns := map LInt (seq 0 width); values := rows |}.

(** A title, a blank row, the header in row 2 from column 1, two data rows
    and a total. *)
Definition with_total : DataFrame :=
  raw 4 [ [NaN; Str "Report"; NaN; NaN];
          [NaN; NaN; NaN; NaN];
          [NaN; Str "Sl. No."; Str "Name"; Str "Sample"];
          [NaN; Int 1; Str "a"; Str "x"];
          [NaN; Int 2; Str "b"; Str "y"];
          [NaN; Str "Total"; NaN; Int 2] ].

(** The word Total only to the right of the Sample column. *)
Definition total_outside : DataFrame :=
  raw 4 [ [Str "Sl. No."; Str "Name"; Str "Sample"; Str "Notes"];
          [Int 1; Str "a"; Str "x"; NaN];
          [Int 2; Str "b"; Str "y"; NaN];
          [NaN; NaN; NaN; Str "Total"] ].

(** The same span, nothing to its right. *)
Definition total_outside_cleared : DataFrame :=
  raw 4 [ [Str "Sl. No."; Str "Name"; Str "Sample"; NaN];
          [Int 1; Str "a"; Str "x"; NaN];
          [Int 2; Str "b"; Str "y"; NaN];
          [NaN; NaN; NaN; NaN] ].

(** Two data rows and no total. *)
Definition no_total : DataFrame :=
  raw 3 [ [Str "Sl. No."; Str "Name"; Str "Sample"];
          [Int 1; Str "a"; Str "x"];
          [Int 2; Str "b"; Str "y"] ].

(** A data row, a row of one missing and one whitespace-only cell, a data
    row and a total. *)
Definition mixed_blank : DataFrame :=
  raw 2 [ [Str "Sl. No."; Str "Sample"];
          [Int 1; Str "x"];
          [NaN; Str " "];
          [Int 2; Str "y"];
          [Str "Total"; NaN] ].

(** Sheet A of the combining example: columns Sl. No., Name, Sample. *)
Definition sheet_a : DataFrame :=
  raw 3 [ [Str "Sl. No."; Str "Name"; Str "Sample"];
          [Int 1; Str "ann"; Str "s1"];
          [Str "Total"; NaN; NaN] ].

(** Sheet B: a Remarks column as well. *)
Definition sheet_b : DataFrame :=
  raw 4 [ [Str "Sl. No."; Str "Name"; Str "Remarks"; Str "Sample"];
          [Int 1; Str "bob"; Str "late"; Str "s2"];
          [Str "Total"; NaN; NaN; NaN] ].

(** What the sheet extractor returns for them, as sheet 28-10-25 of a.xlsx
    and of b.xlsx. *)
Definition table_a : DataFrame :=
  {| columns := [LStr "Sl. No."; LStr "Name"; LStr "Sample";
                 LStr "Source_File"; LStr "Sheet_Name"; LStr "Date"];
     values := [ [Int 1; Str "ann"; Str "s1";
                  Str "a.xlsx"; Str "28-10-25"; Str "2025-10-28"] ] |}.

Definition table_b : DataFrame :=
  {| columns := [LStr "Sl. No."; LStr "Name"; LStr "Remarks"; LStr "Sample";
                 LStr "Source_File"; LStr "Sheet_Name"; LStr "Date"];
     values := [ [Int 1; Str "bob"; Str "late"; Str "s2";
                  Str "b.xlsx"; Str "28-10-25"; Str "2025-10-28"] ] |}.

(** A sheet whose header has a Date column of its own. *)
Definition with_date : DataFrame :=
  raw 3 [ [Str "Sl. No."; Str "Date"; Str "Sample"];
          [Int 1; Str "yesterday"; Str "s1"];
          [Str "Total"; NaN; NaN] ].

(** What the sheet extractor returns for it as sheet 28-10-25 of a.xlsx. *)
Definition table_with_date : DataFrame :=
  {| columns := [LStr "Sl. No."; LStr "Date"; LStr "Sample";
                 LStr "Source_File"; LStr "Sheet_Name"];
     values := [ [Int 1; Str "2025-10-28"; Str "s1";
                  Str "a.xlsx"; Str "28-10-25"] ] |}.



(** A column of whole numbers only, its header cell included. *)
Definition with_count : DataFrame :=
  raw 3 [ [Str "Sl. No."; Int 2024; Str "Sample"];
          [Int 1; Int 5; Str "s3"];
          [Str "Total"; Int 5; NaN] ].

(** A sheet without the header marker. *)
Definition no_header : DataFrame :=
  raw 2 [ [Str "Item"; Str "Sample"]; [Int 1; Str "x"] ].

(** A folder whose one workbook has that sheet only, and a text file. *)
Definition folder_of_skipped : Folder :=
  {| folder_path := "/data";
     listing :=
       [ {| name := "notes.txt"; workbook := Raise (OtherError "not a workbook") |};
         {| name := "a.xlsx"; workbook := Ok [("Sheet1", Ok no_header)] |} ] |}.

(** No total; a blank row, two data rows, a blank row and one more data
    row below the header. *)
Definition two_blocks : DataFrame :=
  raw 3 [ [Str "Sl. No."; Str "Name"; Str "Sample"];
          [NaN; Str " "; NaN];
          [Int 1; Str "a"; Str "x"];
          [Int 2; Str "b"; Str "y"];
          [NaN; NaN; NaN];
          [Int 3; Str "c"; Str "z"] ].

(** A folder with sheet A in a.xlsx, sheet B in b.xlsx and a text file. *)
Definition folder_ab : Folder :=
  {| folder_path := "/data";
     listing :=
       [ {| name := "a.xlsx"; workbook := Ok [("28-10-25", Ok sheet_a)] |};
         {| name := "notes.txt";
            workbook := Raise (OtherError "not a workbook") |};
         {| name := "b.xlsx"; workbook := Ok [("28-10-25", Ok sheet_b)] |} ] |}.

Definition book (file_name sheet_name : string) (df : DataFrame) : ExcelFile :=
  {| name := file_name; workbook := Ok [(sheet_name, Ok df)] |}.

End Sample.

(** * Properties *)

(** ** Loops *)

Section ForRange.

Context {A : Type}.
Implicit Types (body : nat -> result (option A)).

Lemma for_range_ext body body' lo n :
  (forall i, lo <= i < lo + n -> body i = body' i) ->
  for_range body lo n = for_range body' lo n.
Proof.
  revert lo; induction n as [|n IH]; intros lo Hext; simpl; [reflexivity|].
  rewrite <- (Hext lo) by lia.
  destruct (body lo) as [[v|]|e]; simpl; try reflexivity.
  apply IH; intros i Hi; apply Hext; lia.
Qed.

Lemma for_range_Some body lo n v :
  for_range body lo n = Ok (Some v) <->
  exists i, lo <= i < lo + n /\ body i = Ok (Some v)
            /\ forall j, lo <= j < i -> body j = Ok None.
Proof.
  revert lo; induction n as [|n IH]; intros lo; simpl.
  - split; [discriminate|]. intros (i & Hi & _); lia.
  - destruct (body lo) as [[w|]|e] eqn:Hlo; simpl.
    + split.
      * intros Heq; exists lo; repeat split; try lia; congruence.
      * intros (i & Hi & Hb & Hfirst).
        destruct (Nat.eq_dec i lo) as [->|Hne]; [congruence|].
        specialize (Hfirst lo ltac:(lia)); congruence.
    + rewrite IH; split.
      * intros (i & Hi & Hb & Hfirst); exists i; repeat split; try lia; auto.
        intros j Hj; destruct (Nat.eq_dec j lo) as [->|Hne]; auto.
        apply Hfirst; lia.
      * intros (i & Hi & Hb & Hfirst).
        destruct (Nat.eq_dec i lo) as [->|Hne]; [congruence|].
        exists i; repeat split; try lia; auto.
        intros j Hj; apply Hfirst; lia.
    + split; [discriminate|].
      intros (i & Hi & Hb & Hfirst).
      destruct (Nat.eq_dec i lo) as [->|Hne]; [congruence|].
      specialize (Hfirst lo ltac:(lia)); congruence.
Qed.

Lemma for_range_None body lo n :
  for_range body lo n = Ok None <->
  forall i, lo <= i < lo + n -> body i = Ok None.
Proof.
  revert lo; induction n as [|n IH]; intros lo; simpl.
  - split; [intros _ i Hi; lia | reflexivity].
  - destruct (body lo) as [[w|]|e] eqn:Hlo; simpl.
    + split; [discriminate|]. intros Hall.
      specialize (Hall lo ltac:(lia)); congruence.
    + rewrite IH; split; intros Hall i Hi.
      * destruct (Nat.eq_dec i lo) as [->|Hne]; auto. apply Hall; lia.
      * apply Hall; lia.
    + split; [discriminate|]. intros Hall.
      specialize (Hall lo ltac:(lia)); congruence.
Qed.

Lemma for_range_total body lo n :
  (forall i, lo <= i < lo + n -> exists r, body i = Ok r) ->
  exists r, for_range body lo n = Ok r.
Proof.
  revert lo; induction n as [|n IH]; intros lo Hok; simpl; [eauto|].
  destruct (Hok lo ltac:(lia)) as ([v|] & ->); simpl; [eauto|].
  apply IH; intros i Hi; apply Hok; lia.
Qed.

End ForRange.

(** ** Cells *)

Lemma at_bounds df r c v :
  rectangular df -> at_ df r c = Some v ->
  r < len df /\ c < length (columns df).
Proof.
  unfold rectangular, at_, len; intros Hrect Hat.
  destruct (nth_error (values df) r) as [row|] eqn:Hrow; [|discriminate].
  split.
  - apply nth_error_Some; congruence.
  - rewrite Forall_forall in Hrect.
    rewrite <- (Hrect row (nth_error_In _ _ Hrow)).
    apply nth_error_Some; congruence.
Qed.

Lemma at_defined df r c :
  rectangular df -> r < len df -> c < length (columns df) ->
  exists v, at_ df r c = Some v.
Proof.
  unfold rectangular, at_, len; intros Hrect Hr Hc.
  destruct (nth_error (values df) r) as [row|] eqn:Hrow.
  - rewrite Forall_forall in Hrect.
    rewrite <- (Hrect row (nth_error_In _ _ Hrow)) in Hc.
    destruct (nth_error row c) eqn:Hcell; [eauto|].
    apply nth_error_None in Hcell; lia.
  - apply nth_error_None in Hrow; lia.
Qed.

Lemma probe_Some {A} df test r c (ret x : A) :
  probe df test r c ret = Ok (Some x) <->
  x = ret /\ exists v, at_ df r c = Some v /\ test v = true.
Proof.
  unfold probe, iloc.
  destruct (at_ df r c) as [v|]; simpl.
  - destruct (test v) eqn:Ht; split.
    + intros [= <-]; eauto.
    + intros [-> _]; reflexivity.
    + discriminate.
    + intros (_ & w & [= <-] & Hw); congruence.
  - split; [discriminate|]. intros (_ & w & Hw & _); discriminate.
Qed.

Lemma probe_None {A} df test r c (ret : A) :
  probe df test r c ret = Ok None <->
  exists v, at_ df r c = Some v /\ test v = false.
Proof.
  unfold probe, iloc.
  destruct (at_ df r c) as [v|]; simpl.
  - destruct (test v) eqn:Ht; split.
    + discriminate.
    + intros (w & [= <-] & Hw); congruence.
    + eauto.
    + reflexivity.
  - split; [discriminate|]. intros (w & Hw & _); discriminate.
Qed.

(** A scan of the columns [c0 .. c0+cn-1] of one row. *)
Lemma scan_row_Some {A} df test r (ret : nat -> A) c0 cn x :
  for_range (fun c => probe df test r c (ret c)) c0 cn = Ok (Some x) <->
  exists c, c0 <= c < c0 + cn /\ x = ret c
    /\ (exists v, at_ df r c = Some v /\ test v = true)
    /\ forall c', c0 <= c' < c ->
         exists v, at_ df r c' = Some v /\ test v = false.
Proof.
  rewrite for_range_Some; split.
  - intros (c & Hc & Hhit & Hmiss).
    apply probe_Some in Hhit as (-> & Hv).
    exists c; split; [exact Hc|]; split; [reflexivity|]; split; [exact Hv|].
    intros c' Hc'; apply (probe_None df test r c' (ret c')); auto.
  - intros (c & Hc & -> & Hv & Hmiss).
    exists c; split; [exact Hc|]; split.
    + apply probe_Some; auto.
    + intros j Hj; apply probe_None; auto.
Qed.

Lemma scan_row_None {A} df test r (ret : nat -> A) c0 cn :
  for_range (fun c => probe df test r c (ret c)) c0 cn = Ok None <->
  forall c, c0 <= c < c0 + cn ->
    exists v, at_ df r c = Some v /\ test v = false.
Proof.
  rewrite for_range_None; split; intros Hall c Hc.
  - apply (probe_None df test r c (ret c)); auto.
  - apply probe_None; auto.
Qed.

(** A scan of the rows [r0 .. r0+rn-1], each over the columns
    [c0 .. c0+cn-1]. *)
Lemma scan_rows_Some {A} df test (ret : nat -> nat -> A) r0 rn c0 cn x :
  for_range (fun r => for_range (fun c => probe df test r c (ret r c)) c0 cn)
            r0 rn = Ok (Some x) <->
  exists r c, r0 <= r < r0 + rn /\ c0 <= c < c0 + cn /\ x = ret r c
    /\ (exists v, at_ df r c = Some v /\ test v = true)
    /\ (forall c', c0 <= c' < c ->
          exists v, at_ df r c' = Some v /\ test v = false)
    /\ (forall r' c', r0 <= r' < r -> c0 <= c' < c0 + cn ->
          exists v, at_ df r' c' = Some v /\ test v = false).
Proof.
  rewrite for_range_Some; split.
  - intros (r & Hr & Hhit & Hmiss).
    apply (scan_row_Some df test r (ret r)) in Hhit
      as (c & Hc & -> & Hv & Hleft).
    exists r, c; split; [exact Hr|]; split; [exact Hc|]; split; [reflexivity|].
    split; [exact Hv|]; split; [exact Hleft|].
    intros r' c' Hr' Hc'.
    specialize (Hmiss r' Hr').
    rewrite (scan_row_None df test r' (ret r')) in Hmiss; auto.
  - intros (r & c & Hr & Hc & -> & Hv & Hleft & Habove).
    exists r; split; [exact Hr|]; split.
    + apply (scan_row_Some df test r (ret r)); exists c; auto.
    + intros j Hj; apply (scan_row_None df test j (ret j)); auto.
Qed.

Lemma scan_rows_None {A} df test (ret : nat -> nat -> A) r0 rn c0 cn :
  for_range (fun r => for_range (fun c => probe df test r c (ret r c)) c0 cn)
            r0 rn = Ok None <->
  forall r c, r0 <= r < r0 + rn -> c0 <= c < c0 + cn ->
    exists v, at_ df r c = Some v /\ test v = false.
Proof.
  rewrite for_range_None; split.
  - intros Hall r c Hr Hc. specialize (Hall r Hr).
    rewrite (scan_row_None df test r (ret r)) in Hall; auto.
  - intros Hall r Hr. apply (scan_row_None df test r (ret r)); auto.
Qed.

Lemma scan_row_total {A} df test r (ret : nat -> A) c0 cn :
  rectangular df -> r < len df -> c0 + cn <= length (columns df) ->
  exists o, for_range (fun c => probe df test r c (ret c)) c0 cn = Ok o.
Proof.
  intros Hrect Hr Hc. apply for_range_total; intros c Hin.
  destruct (at_defined df r c Hrect Hr ltac:(lia)) as (v & Hv).
  unfold probe, iloc; rewrite Hv; simpl.
  destruct (test v); eauto.
Qed.

Lemma scan_rows_total {A} df test (ret : nat -> nat -> A) r0 rn c0 cn :
  rectangular df -> r0 + rn <= len df -> c0 + cn <= length (columns df) ->
  exists o,
    for_range (fun r => for_range (fun c => probe df test r c (ret r c)) c0 cn)
              r0 rn = Ok o.
Proof.
  intros Hrect Hr Hc. apply for_range_total; intros r Hin.
  apply scan_row_total; auto; lia.
Qed.

(** ** The header locator *)

Lemma find_header_row_scan df :
  find_header_row df =
  for_range (fun r =>
    for_range (fun c => probe df header_marker r c (r, c))
              0 (length (columns df)))
    0 (Nat.min 20 (len df)).
Proof. reflexivity. Qed.

Lemma header_marker_true v :
  header_marker v = true <-> PyStr.strip (str v) = "Sl. No.".
Proof. apply String.eqb_eq. Qed.

Lemma header_marker_false v :
  header_marker v = false <-> PyStr.strip (str v) <> "Sl. No.".
Proof. apply String.eqb_neq. Qed.

Section HeaderLocator.

Context `{Dateutil}.

(** C8.  On a sheet, the header locator looks at rows 0 .. min(20, rows)-1
    only.  It returns (r, c) exactly when the cell there, trimmed, is the
    text Sl. No. and no cell of an earlier row, nor an earlier cell of row r,
    is; it returns not-found exactly when no cell of those rows is; it never
    raises; and on not-found the sheet extractor skips the sheet. *)
Theorem header_locator_first_match (df : DataFrame) :
  rectangular df ->
  (forall r c,
      find_header_row df = Ok (Some (r, c)) <->
      r < Nat.min 20 (len df)
      /\ (exists v, at_ df r c = Some v /\ PyStr.strip (str v) = "Sl. No.")
      /\ (forall r' c' v',
             r' < r \/ (r' = r /\ c' < c) ->
             at_ df r' c' = Some v' -> PyStr.strip (str v') <> "Sl. No."))
  /\ (find_header_row df = Ok None <->
      forall r c v,
        r < Nat.min 20 (len df) ->
        at_ df r c = Some v -> PyStr.strip (str v) <> "Sl. No.")
  /\ (exists found, find_header_row df = Ok found)
  /\ (forall file_path sheet_name,
        read_excel file_path sheet_name = Ok df ->
        find_header_row df = Ok None ->
        process_sheet file_path sheet_name =
        ("    ⚠ Skipped: 'Sl. No.' not found", None)).
Proof.
  intros Hrect.
  split; [|split; [|split]].
  - intros r c. rewrite find_header_row_scan, scan_rows_Some. split.
    + intros (r0 & c0 & Hr & Hc & [= -> ->] & (v & Hv & Hmark) & Hleft & Habove).
      split; [lia|]. split.
      * exists v; split; [exact Hv|]. now apply header_marker_true.
      * intros r' c' v' Hbefore Hv'.
        destruct (at_bounds df r' c' v' Hrect Hv') as [_ Hc'].
        apply header_marker_false.
        destruct Hbefore as [Hlt|[-> Hlt]].
        -- destruct (Habove r' c' ltac:(lia) ltac:(lia)) as (w & Hw & Hno).
           congruence.
        -- destruct (Hleft c' ltac:(lia)) as (w & Hw & Hno). congruence.
    + intros (Hr & (v & Hv & Hmark) & Hfirst).
      destruct (at_bounds df r c v Hrect Hv) as [_ Hc].
      exists r, c. split; [lia|]. split; [lia|]. split; [reflexivity|].
      split; [|split].
      * exists v; split; [exact Hv|]. now apply header_marker_true.
      * intros c' Hc'.
        destruct (at_defined df r c' Hrect ltac:(lia) ltac:(lia)) as (w & Hw).
        exists w; split; [exact Hw|]. apply header_marker_false.
        apply (Hfirst r c' w); [right; split; [reflexivity|lia] | exact Hw].
      * intros r' c' Hr' Hc'.
        destruct (at_defined df r' c' Hrect ltac:(lia) ltac:(lia)) as (w & Hw).
        exists w; split; [exact Hw|]. apply header_marker_false.
        apply (Hfirst r' c' w); [left; lia | exact Hw].
  - rewrite find_header_row_scan, scan_rows_None. split.
    + intros Hall r c v Hr Hv.
      destruct (at_bounds df r c v Hrect Hv) as [_ Hc].
      destruct (Hall r c ltac:(lia) ltac:(lia)) as (w & Hw & Hno).
      apply header_marker_false. congruence.
    + intros Hall r c Hr Hc.
      destruct (at_defined df r c Hrect ltac:(lia) ltac:(lia)) as (w & Hw).
      exists w; split; [exact Hw|]. apply header_marker_false.
      apply (Hall r c w); [lia | exact Hw].
  - rewrite find_header_row_scan. apply scan_rows_total; [exact Hrect| |]; lia.
  - intros file_path sheet_name Hread Hnone.
    unfold process_sheet, process_sheet_try.
    rewrite Hread; simpl. rewrite Hnone; reflexivity.
Qed.

End HeaderLocator.

Lemma header_locator_first_match_witness :
  rectangular Sample.with_total
  /\ exists found, find_header_row Sample.with_total = Ok found.
Proof.
  assert (Hrect : rectangular Sample.with_total) by (repeat constructor).
  split; [exact Hrect|].
  exact (proj1 (proj2 (proj2
           (header_locator_first_match Sample.with_total Hrect)))).
Defined.

(** ** The two end-of-data locators *)

Lemma find_total_row_scan df start_row start_col end_col :
  find_total_row df start_row start_col end_col =
  for_range (fun r =>
    for_range (fun c => probe df terminator_text r c r)
              start_col (end_col + 1 - start_col))
    (start_row + 1) (len df - (start_row + 1)).
Proof. reflexivity. Qed.

Lemma row_has_data_scan df idx start_col end_col :
  row_has_data df idx start_col end_col =
  for_range (fun c => probe df data_text idx c tt)
            start_col (end_col + 1 - start_col).
Proof. reflexivity. Qed.

Lemma nth_error_slice {A} (xs : list A) lo hi i :
  lo <= i < hi -> nth_error (slice lo hi xs) (i - lo) = nth_error xs i.
Proof.
  intros Hi. unfold slice.
  rewrite nth_error_firstn, nth_error_skipn.
  replace (lo + (i - lo)) with i by lia.
  destruct (Nat.ltb_spec (i - lo) (hi - lo)); [reflexivity|lia].
Qed.

Lemma at_span df lo hi r c :
  lo <= c <= hi ->
  at_ df r c =
  match nth_error (span lo hi df) r with
  | Some row => nth_error row (c - lo)
  | None => None
  end.
Proof.
  intros Hc. unfold at_, span. rewrite nth_error_map.
  destruct (nth_error (values df) r) as [row|]; simpl; [|reflexivity].
  symmetry; apply nth_error_slice; lia.
Qed.

Lemma span_len df df' lo hi :
  span lo hi df = span lo hi df' -> len df = len df'.
Proof.
  unfold span, len; intros Heq.
  rewrite <- (length_map (slice lo (hi + 1)) (values df)), Heq.
  apply length_map.
Qed.

Lemma probe_span {A} df df' test lo hi r c (ret : A) :
  span lo hi df = span lo hi df' -> lo <= c <= hi ->
  probe df test r c ret = probe df' test r c ret.
Proof.
  intros Heq Hc. unfold probe, iloc.
  rewrite (at_span df lo hi r c Hc), (at_span df' lo hi r c Hc), Heq.
  reflexivity.
Qed.

Lemma row_has_data_span df df' idx start_col end_col :
  span start_col end_col df = span start_col end_col df' ->
  row_has_data df idx start_col end_col =
  row_has_data df' idx start_col end_col.
Proof.
  intros Heq. rewrite !row_has_data_scan.
  apply for_range_ext; intros c Hc.
  apply (probe_span df df' data_text start_col end_col); [exact Heq|lia].
Qed.

Lemma last_data_loop_span df df' start_col end_col idx n last :
  span start_col end_col df = span start_col end_col df' ->
  last_data_loop df start_col end_col idx n last =
  last_data_loop df' start_col end_col idx n last.
Proof.
  intros Heq. revert idx last; induction n as [|n IH]; intros idx last; simpl.
  - reflexivity.
  - rewrite (row_has_data_span df df' idx start_col end_col Heq).
    destruct (row_has_data df' idx start_col end_col) as [[u|]|e]; simpl.
    + apply IH.
    + destruct last; [reflexivity|apply IH].
    + reflexivity.
Qed.

(** C3, as the code has it.  Both end-of-data locators read the columns
    start_col .. end_col only: two sheets that agree on those columns give
    the same terminator row and the same last data row, and a terminator row
    that is found has its total or summary cell inside those columns. *)
Theorem locators_read_the_span_only
  (df df' : DataFrame) (start_row start_col end_col : nat) :
  span start_col end_col df = span start_col end_col df' ->
  find_total_row df start_row start_col end_col =
  find_total_row df' start_row start_col end_col
  /\ find_last_data_row df start_row start_col end_col =
     find_last_data_row df' start_row start_col end_col
  /\ (forall t,
        find_total_row df start_row start_col end_col = Ok (Some t) ->
        exists c v,
          start_col <= c <= end_col
          /\ at_ df t c = Some v /\ terminator_text v = true).
Proof.
  intros Heq. pose proof (span_len df df' _ _ Heq) as Hlen.
  split; [|split].
  - rewrite !find_total_row_scan, Hlen.
    apply for_range_ext; intros r Hr.
    apply for_range_ext; intros c Hc.
    apply (probe_span df df' terminator_text start_col end_col);
      [exact Heq|lia].
  - unfold find_last_data_row. rewrite Hlen.
    apply last_data_loop_span; exact Heq.
  - intros t Hfound.
    rewrite find_total_row_scan, scan_rows_Some in Hfound.
    destruct Hfound as (r & c & Hr & Hc & -> & (v & Hv & Ht) & _).
    exists c, v. split; [lia|]. split; assumption.
Qed.

Lemma locators_read_the_span_only_witness :
  find_total_row Sample.total_outside 0 0 2 =
  find_total_row Sample.total_outside_cleared 0 0 2
  /\ find_last_data_row Sample.total_outside 0 0 2 =
     find_last_data_row Sample.total_outside_cleared 0 0 2.
Proof.
  destruct (locators_read_the_span_only
              Sample.total_outside Sample.total_outside_cleared 0 0 2
              eq_refl) as (Htotal & Hlast & _).
  split; [exact Htotal | exact Hlast].
Defined.

(** C3, as the specification words it, fails: a total cell to the right of
    the Sample column is not found. *)
Lemma terminator_scan_is_not_full_row :
  ~ (forall df start_row start_col end_col r c v,
        start_row < r ->
        at_ df r c = Some v -> terminator_text v = true ->
        exists t,
          find_total_row df start_row start_col end_col = Ok (Some t)).
Proof.
  intros Hfull.
  destruct (Hfull Sample.total_outside 0 0 2 3 3 (Str "Total")
              ltac:(lia) eq_refl eq_refl) as (t & Ht).
  vm_compute in Ht. discriminate.
Qed.

(** ** The sheet extractor *)

Lemma find_end_col_scan df header_row start_col :
  find_end_col df header_row start_col =
  for_range (fun c => probe df end_marker_text header_row c c)
            start_col (length (columns df) - start_col).
Proof. reflexivity. Qed.

Section SheetExtractor.

Context `{Dateutil}.

(** C1, what the code does.  When no terminator row is found and the
    fallback locator finds a last data row, the end of the data is reset to
    the missing terminator row, the comparison with it raises, and the sheet
    is dropped with an error line. *)
Theorem fallback_end_is_discarded
  (file_path : ExcelFile) (sheet_name : string) (df : DataFrame)
  (header_row start_col end_col last_data_row : nat) :
  read_excel file_path sheet_name = Ok df ->
  find_header_row df = Ok (Some (header_row, start_col)) ->
  find_end_col df header_row start_col = Ok (Some end_col) ->
  find_total_row df header_row start_col end_col = Ok None ->
  find_last_data_row df header_row start_col end_col =
    Ok (Some last_data_row) ->
  process_sheet file_path sheet_name =
  ("    ✗ Error: '>=' not supported between instances of 'int' and 'NoneType'",
   None).
Proof.
  intros Hread Hhdr Hend Htotal Hlast.
  unfold process_sheet, process_sheet_try.
  rewrite Hread; simpl.
  rewrite Hhdr; simpl.
  rewrite Hend; simpl.
  rewrite Htotal; simpl.
  rewrite Hlast; reflexivity.
Qed.

(** C4, what the code does.  A row that holds a missing cell and a cell that
    is not missing survives both filters, whatever the text of its other
    cells: it is not all missing, and the text of the missing cell is nan,
    not the empty string. *)
Theorem mixed_blank_row_is_kept (df : DataFrame) (row : list cell) :
  In row (values df) ->
  In NaN row ->
  (exists v, In v row /\ isna v = false) ->
  In row (values (drop_empty_text (dropna_all df))).
Proof.
  intros Hrow Hnan (v & Hv & Hna). simpl.
  apply filter_In; split; [apply filter_In; split; [exact Hrow|]|].
  - apply negb_true_iff. apply not_true_is_false; intros Hall.
    rewrite forallb_forall in Hall. rewrite (Hall v Hv) in Hna. discriminate.
  - apply negb_true_iff. apply not_true_is_false; intros Hall.
    unfold all_empty_text in Hall. rewrite forallb_forall in Hall.
    specialize (Hall NaN Hnan). vm_compute in Hall. discriminate.
Qed.

End SheetExtractor.

Lemma fallback_end_is_discarded_witness :
  process_sheet (Sample.book "a.xlsx" "28-10-25" Sample.no_total) "28-10-25" =
  ("    ✗ Error: '>=' not supported between instances of 'int' and 'NoneType'",
   None).
Proof.
  apply (fallback_end_is_discarded
           (Sample.book "a.xlsx" "28-10-25" Sample.no_total) "28-10-25"
           Sample.no_total 0 0 2 2); reflexivity.
Defined.

Lemma mixed_blank_row_is_kept_witness :
  In [NaN; Str " "]
     (values (drop_empty_text (dropna_all Sample.mixed_blank))).
Proof.
  apply (mixed_blank_row_is_kept Sample.mixed_blank [NaN; Str " "]).
  - simpl; auto.
  - simpl; auto.
  - exists (Str " "); simpl; auto.
Defined.

(** The mixed row reaches the extracted table: three rows, not two. *)
Example mixed_blank_row_is_extracted :
  process_sheet (Sample.book "a.xlsx" "28-10-25" Sample.mixed_blank)
                "28-10-25" =
  ("    ✓ Extracted 3 rows (Header at row 1, Total/Summary at row 5)",
   Some {| columns := [LStr "Sl. No."; LStr "Sample"; LStr "Source_File";
                       LStr "Sheet_Name"; LStr "Date"];
           values :=
             [ [Int 1; Str "x"; Str "a.xlsx"; Str "28-10-25";
                Str "2025-10-28"];
               [NaN; Str " "; Str "a.xlsx"; Str "28-10-25";
                Str "2025-10-28"];
               [Int 2; Str "y"; Str "a.xlsx"; Str "28-10-25";
                Str "2025-10-28"] ] |}).
Proof. vm_compute. reflexivity. Qed.

(** ** Where the locators can point *)

Lemma header_found_bounds df header_row start_col :
  find_header_row df = Ok (Some (header_row, start_col)) ->
  header_row < len df /\ start_col < length (columns df).
Proof.
  rewrite find_header_row_scan, scan_rows_Some.
  intros (r & c & Hr & Hc & [= -> ->] & _). lia.
Qed.

Lemma end_col_bounds df header_row start_col end_col :
  find_end_col df header_row start_col = Ok (Some end_col) ->
  start_col <= end_col < length (columns df).
Proof.
  rewrite find_end_col_scan, scan_row_Some.
  intros (c & Hc & -> & _). lia.
Qed.

Lemma total_row_bounds df start_row start_col end_col total_row :
  find_total_row df start_row start_col end_col = Ok (Some total_row) ->
  start_row < total_row < len df.
Proof.
  rewrite find_total_row_scan, scan_rows_Some.
  intros (r & c & Hr & Hc & -> & _). lia.
Qed.

(** ** Slices and filters *)

Lemma length_slice {A} (xs : list A) lo hi :
  length (slice lo hi xs) = Nat.min (hi - lo) (length xs - lo).
Proof. unfold slice. now rewrite length_firstn, length_skipn. Qed.

Lemma filter_twice {A} (f g : A -> bool) (xs : list A) :
  filter g (filter f xs) = filter (fun x => f x && g x) xs.
Proof.
  induction xs as [|x xs IH]; simpl; [reflexivity|].
  destruct (f x); simpl; [destruct (g x)|]; now rewrite IH.
Qed.

Lemma blank_filters df :
  drop_empty_text (dropna_all df) =
  {| columns := columns df;
     values := filter (fun row => negb (fully_blank row)) (values df) |}.
Proof.
  unfold drop_empty_text, dropna_all; cbn [columns values]. f_equal.
  rewrite filter_twice. apply filter_ext; intros row.
  unfold fully_blank. now rewrite negb_orb.
Qed.

Lemma length_kept {A} (f : A -> bool) (xs : list A) :
  length (filter (fun x => negb (f x)) xs) =
  length xs - length (filter f xs).
Proof. pose proof (filter_length f xs). lia. Qed.

Lemma len_setitem df l v : len (setitem df l v) = len df.
Proof.
  unfold setitem, len.
  destruct (has_label l (columns df)); simpl; apply length_map.
Qed.

Section WithTerminator.

Context `{Dateutil}.

Variables (file_path : ExcelFile) (sheet_name : string) (df : DataFrame).
Variables (header_row start_col end_col total_row : nat).
Variable header_cells : list cell.

Hypothesis Hrect : rectangular df.
Hypothesis Hread : read_excel file_path sheet_name = Ok df.
Hypothesis Hheader : find_header_row df = Ok (Some (header_row, start_col)).
Hypothesis Hend : find_end_col df header_row start_col = Ok (Some end_col).
Hypothesis Htotal :
  find_total_row df header_row start_col end_col = Ok (Some total_row).
Hypothesis Hcells : nth_error (values df) header_row = Some header_cells.

(** What [process_sheet] comes to once a terminator row is found. *)
Lemma process_sheet_with_total :
  process_sheet file_path sheet_name =
  if total_row <=? header_row + 1
  then ("    ⚠ Skipped: No data rows found between header and Total", None)
  else
    let headers :=
      map (fun v => PyStr.strip (str v))
          (slice start_col (end_col + 1) header_cells) in
    let body :=
      map (slice start_col (end_col + 1))
          (slice (header_row + 1) total_row (values df)) in
    let kept := filter (fun row => negb (fully_blank row)) body in
    if length kept =? 0
    then ("    ⚠ Skipped: All data rows were blank", None)
    else
      let data_df :=
        setitem
          (setitem
             (setitem {| columns := map LStr headers; values := kept |}
                      (LStr "Source_File") (Str (name file_path)))
             (LStr "Sheet_Name") (Str sheet_name))
          (LStr "Date") (Str (convert_sheet_name_to_date sheet_name)) in
      let rows_removed := length body - length kept in
      ("    ✓ Extracted " ++ PyStr.of_nat (len data_df) ++
       " rows (Header at row " ++ PyStr.of_nat (header_row + 1) ++ ", " ++
       ("Total/Summary at row " ++ PyStr.of_nat (total_row + 1)) ++
       (if 0 <? rows_removed
        then ", " ++ PyStr.of_nat rows_removed ++ " blank row(s) removed"
        else "") ++ ")",
       Some data_df).
Proof.
  unfold process_sheet, process_sheet_try.
  rewrite Hread; cbn [bind].
  rewrite Hheader; cbn [bind].
  rewrite Hend; cbn [bind].
  rewrite Htotal; cbn [bind py_ge].
  destruct (total_row <=? header_row + 1); [reflexivity|].
  unfold iloc_row. rewrite Hcells; cbn [bind].
  unfold set_columns.
  replace (length (map (fun v => PyStr.strip (str v))
                       (slice start_col (end_col + 1) header_cells))
           =? length (columns (iloc_block df (header_row + 1) (Some total_row)
                                          start_col (end_col + 1))))
    with true.
  2:{ symmetry; apply Nat.eqb_eq. cbn [iloc_block columns].
      rewrite length_map, !length_slice.
      unfold rectangular in Hrect. rewrite Forall_forall in Hrect.
      now rewrite (Hrect header_cells (nth_error_In _ _ Hcells)). }
  cbn [bind].
  rewrite blank_filters.
  unfold len, iloc_block, slice_to. cbn [values columns].
  destruct (length (filter (fun row => negb (fully_blank row))
                      (map (slice start_col (end_col + 1))
                         (slice (header_row + 1) total_row (values df))))
            =? 0); reflexivity.
Qed.

End WithTerminator.

Lemma blank_rows_of_the_code row :
  fully_blank row = true -> every_cell_blank row = true.
Proof.
  unfold fully_blank, every_cell_blank, all_empty_text, blank_cell.
  rewrite orb_true_iff, !forallb_forall.
  intros [Hall|Hall] v Hv; rewrite (Hall v Hv); [reflexivity|].
  apply orb_true_r.
Qed.

Lemma mixed_row_is_not_dropped row :
  In NaN row -> (exists v, In v row /\ isna v = false) ->
  fully_blank row = false.
Proof.
  intros Hnan (v & Hv & Hna). unfold fully_blank.
  apply orb_false_iff; split; apply not_true_is_false; intros Hall.
  - rewrite forallb_forall in Hall. rewrite (Hall v Hv) in Hna. discriminate.
  - unfold all_empty_text in Hall. rewrite forallb_forall in Hall.
    specialize (Hall NaN Hnan). vm_compute in Hall. discriminate.
Qed.

Lemma filter_length_le {A} (f g : A -> bool) (xs : list A) :
  (forall x, f x = true -> g x = true) ->
  length (filter f xs) <= length (filter g xs).
Proof.
  intros Hfg. induction xs as [|x xs IH]; simpl; [lia|].
  destruct (f x) eqn:Hf.
  - rewrite (Hfg x Hf). simpl. lia.
  - destruct (g x); simpl; lia.
Qed.

Lemma filter_length_lt {A} (f g : A -> bool) (xs : list A) x :
  (forall y, f y = true -> g y = true) ->
  In x xs -> g x = true -> f x = false ->
  length (filter f xs) < length (filter g xs).
Proof.
  intros Hfg. induction xs as [|y xs IH]; simpl; [tauto|].
  intros [->|Hin] Hg Hf.
  - rewrite Hf, Hg. simpl.
    pose proof (filter_length_le f g xs Hfg). lia.
  - specialize (IH Hin Hg Hf). destruct (f y) eqn:Hfy.
    + rewrite (Hfg y Hfy). simpl. lia.
    + destruct (g y); simpl; lia.
Qed.

Section TerminatorCount.

Context `{Dateutil}.

(** With the header in row H and columns start_col .. end_col, and the
    terminator locator returning row T: T lies below H; the rows H+1 .. T-1
    are T - H - 1 rows; and the sheet extractor returns a table exactly when
    one of them survives the blank-row filter, its row count being T - H - 1
    less the rows the filter removes.  Row T is not among them. *)
Lemma kept_row_count
  (file_path : ExcelFile) (sheet_name : string) (df : DataFrame)
  (header_row start_col end_col total_row : nat) :
  rectangular df ->
  read_excel file_path sheet_name = Ok df ->
  find_header_row df = Ok (Some (header_row, start_col)) ->
  find_end_col df header_row start_col = Ok (Some end_col) ->
  find_total_row df header_row start_col end_col = Ok (Some total_row) ->
  let body :=
    map (slice start_col (end_col + 1))
        (slice (header_row + 1) total_row (values df)) in
  let removed := length (filter fully_blank body) in
  header_row < total_row < len df
  /\ length body = total_row - header_row - 1
  /\ match snd (process_sheet file_path sheet_name) with
     | Some table =>
         len table = total_row - header_row - 1 - removed /\ 0 < len table
     | None => total_row - header_row - 1 - removed = 0
     end.
Proof.
  intros Hrect Hread Hheader Hend Htotal body removed.
  pose proof (total_row_bounds _ _ _ _ _ Htotal) as Hbounds.
  assert (Hbody : length body = total_row - header_row - 1).
  { unfold body. rewrite length_map, length_slice. unfold len in Hbounds. lia. }
  split; [exact Hbounds|]. split; [exact Hbody|].
  destruct (nth_error (values df) header_row) as [header_cells|] eqn:Hcells.
  2:{ apply nth_error_None in Hcells. unfold len in Hbounds. lia. }
  rewrite (process_sheet_with_total file_path sheet_name df header_row
             start_col end_col total_row header_cells
             Hrect Hread Hheader Hend Htotal Hcells).
  destruct (Nat.leb_spec total_row (header_row + 1)) as [Hle|Hlt].
  - cbn [snd]. lia.
  - cbv zeta. fold body.
    pose proof (length_kept fully_blank body) as Hkept. fold removed in Hkept.
    destruct (Nat.eqb_spec
                (length (filter (fun row => negb (fully_blank row)) body)) 0)
      as [Hzero|Hpos]; cbn [snd].
    + lia.
    + rewrite !len_setitem. unfold len; cbn [values]. lia.
Qed.

(** C2, what the code does.  Take a sheet with the header in row H, columns
    start_col .. end_col and the terminator in row T, and among the rows
    H+1 .. T-1 one whose cells are all blank, some of them missing and some
    not, as a row of a missing value and a whitespace-only text is.  The
    sheet extractor returns a table; it has the T - H - 1 rows less those
    that are all missing or all empty text, and that is more than T - H - 1
    less the fully blank rows: the blank row that mixes the two is counted
    as data. *)
Theorem terminator_count_keeps_mixed_rows
  (file_path : ExcelFile) (sheet_name : string) (df : DataFrame)
  (header_row start_col end_col total_row : nat) (row : list cell) :
  rectangular df ->
  read_excel file_path sheet_name = Ok df ->
  find_header_row df = Ok (Some (header_row, start_col)) ->
  find_end_col df header_row start_col = Ok (Some end_col) ->
  find_total_row df header_row start_col end_col = Ok (Some total_row) ->
  let body :=
    map (slice start_col (end_col + 1))
        (slice (header_row + 1) total_row (values df)) in
  In row body ->
  every_cell_blank row = true ->
  In NaN row ->
  (exists v, In v row /\ isna v = false) ->
  exists table,
    snd (process_sheet file_path sheet_name) = Some table
    /\ len table =
       total_row - header_row - 1
       - length (filter (fun r => forallb isna r || all_empty_text r) body)
    /\ total_row - header_row - 1 - length (filter every_cell_blank body)
       < len table.
Proof.
  intros Hrect Hread Hheader Hend Htotal body Hrow Hblank Hnan Hmixed.
  destruct (kept_row_count file_path sheet_name df header_row start_col
              end_col total_row Hrect Hread Hheader Hend Htotal)
    as (_ & Hbody & Hcount).
  fold body in Hbody, Hcount.
  pose proof (filter_length_lt fully_blank every_cell_blank body row
                blank_rows_of_the_code Hrow Hblank
                (mixed_row_is_not_dropped row Hnan Hmixed)) as Hfewer.
  pose proof (filter_length every_cell_blank body) as Hall.
  change (fun r => forallb isna r || all_empty_text r) with fully_blank.
  destruct (snd (process_sheet file_path sheet_name)) as [table|].
  - exists table. split; [reflexivity|]. split; [tauto|]. lia.
  - exfalso. lia.
Qed.

End TerminatorCount.

Lemma terminator_count_keeps_mixed_rows_witness :
  exists table,
    snd (process_sheet (Sample.book "a.xlsx" "28-10-25" Sample.mixed_blank)
                       "28-10-25") = Some table
    /\ len table = 3
    /\ 4 - 0 - 1 - 1 < len table.
Proof.
  assert (Hrect : rectangular Sample.mixed_blank) by (repeat constructor).
  assert (Hrow : In [NaN; Str " "]
                   (map (slice 0 (1 + 1))
                      (slice (0 + 1) 4 (values Sample.mixed_blank))))
    by (simpl; auto).
  assert (Hnan : In NaN [NaN; Str " "]) by (simpl; auto).
  assert (Hmixed : exists v, In v [NaN; Str " "] /\ isna v = false)
    by (exists (Str " "); simpl; auto).
  exact (terminator_count_keeps_mixed_rows
           (Sample.book "a.xlsx" "28-10-25" Sample.mixed_blank) "28-10-25"
           Sample.mixed_blank 0 0 1 4 [NaN; Str " "]
           Hrect eq_refl eq_refl eq_refl eq_refl Hrow eq_refl Hnan Hmixed).
Defined.

(** ** The date deriver *)

Section DateDeriver.

Context `{Dateutil}.

(** C5.  The date deriver hands the parser the sheet name trimmed and with
    its dots turned into hyphens, asking for day-first; a date comes back as
    YYYY-MM-DD, and a failure of the parser comes back as PARSE_ERROR
    followed by the cleaned name, never as an exception.  With a parser that
    reads 28-10-25 as 28 October 2025 and rejects the text not a date, the
    three names of the specification give the three strings it lists. *)
Theorem date_deriver_examples :
  parser_parse "28-10-25" true = Ok {| year := 2025; month := 10; day := 28 |} ->
  (exists e, parser_parse "not a date" true = Raise e) ->
  convert_sheet_name_to_date "28-10-25" = "2025-10-28"
  /\ convert_sheet_name_to_date "28.10.25" = "2025-10-28"
  /\ convert_sheet_name_to_date "not a date" = "PARSE_ERROR: not a date"
  /\ (forall sheet_name parsed_date,
        parser_parse (PyStr.replace "." "-" (PyStr.strip sheet_name)) true =
          Ok parsed_date ->
        convert_sheet_name_to_date sheet_name = strftime_ymd parsed_date)
  /\ (forall sheet_name e,
        parser_parse (PyStr.replace "." "-" (PyStr.strip sheet_name)) true =
          Raise e ->
        convert_sheet_name_to_date sheet_name =
        "PARSE_ERROR: " ++ PyStr.replace "." "-" (PyStr.strip sheet_name)).
Proof.
  intros Hdate (e & Hfail).
  assert (Hok : forall sheet_name parsed_date,
             parser_parse (PyStr.replace "." "-" (PyStr.strip sheet_name)) true
               = Ok parsed_date ->
             convert_sheet_name_to_date sheet_name = strftime_ymd parsed_date).
  { intros s d Hparse. unfold convert_sheet_name_to_date.
    cbv zeta. now rewrite Hparse. }
  assert (Herr : forall sheet_name e,
             parser_parse (PyStr.replace "." "-" (PyStr.strip sheet_name)) true
               = Raise e ->
             convert_sheet_name_to_date sheet_name =
             "PARSE_ERROR: " ++ PyStr.replace "." "-" (PyStr.strip sheet_name)).
  { intros s e' Hparse. unfold convert_sheet_name_to_date.
    cbv zeta. now rewrite Hparse. }
  split; [|split; [|split; [|split]]].
  - rewrite (Hok "28-10-25" _ Hdate). reflexivity.
  - rewrite (Hok "28.10.25" _ Hdate). reflexivity.
  - rewrite (Herr "not a date" e Hfail). reflexivity.
  - exact Hok.
  - exact Herr.
Qed.

End DateDeriver.

Lemma date_deriver_examples_witness :
  convert_sheet_name_to_date "28-10-25" = "2025-10-28"
  /\ convert_sheet_name_to_date "28.10.25" = "2025-10-28"
  /\ convert_sheet_name_to_date "not a date" = "PARSE_ERROR: not a date".
Proof.
  destruct (date_deriver_examples (H := dmy_parser) eq_refl
              (ex_intro _ _ eq_refl)) as (Ha & Hb & Hc & _).
  split; [exact Ha|]. split; [exact Hb | exact Hc].
Defined.

(** ** Labels *)

Lemma label_eqb_eq a b : label_eqb a b = true <-> a = b.
Proof.
  destruct a as [n|s], b as [m|t]; simpl.
  - rewrite Nat.eqb_eq. split; congruence.
  - split; discriminate.
  - split; discriminate.
  - rewrite String.eqb_eq. split; congruence.
Qed.

Lemma label_eqb_refl a : label_eqb a a = true.
Proof. now apply label_eqb_eq. Qed.



Lemma has_label_In l ls : has_label l ls = true <-> In l ls.
Proof.
  unfold has_label. rewrite existsb_exists. split.
  - intros (x & Hx & Heq). apply label_eqb_eq in Heq. congruence.
  - intros Hin. exists l. split; [exact Hin | apply label_eqb_refl].
Qed.




(** ** Cells under a label *)








(** ** Labels in order of first appearance *)



Lemma has_label_app l xs ys :
  has_label l (xs ++ ys)%list = has_label l xs || has_label l ys.
Proof. unfold has_label. apply existsb_app. Qed.





Lemma filter_commute {A} (p q : A -> bool) (xs : list A) :
  filter p (filter q xs) = filter q (filter p xs).
Proof.
  rewrite !filter_twice. apply filter_ext; intros x. apply andb_comm.
Qed.








(** ** Concatenation and reordering *)


Lemma value_at_map (f : label -> cell) cols k :
  In k cols -> value_at cols (map f cols) k = f k.
Proof.
  induction cols as [|c cols IH]; simpl; [tauto|].
  destruct (label_eqb c k) eqn:E.
  - apply label_eqb_eq in E. now subst.
  - intros [->|Hin]; [rewrite label_eqb_refl in E; discriminate|auto].
Qed.






Section Concatenation.

Context `{ConcatTypes}.





End Concatenation.


Ltac has_metadata :=
  let l := fresh "l" in
  let Hl := fresh "Hl" in
  intros l Hl; simpl in Hl |- *; intuition auto.

(** ** The metadata columns *)

Lemma setitem_rows df l v :
  setitem df l v =
  {| columns := if has_label l (columns df) then columns df
                else (columns df ++ [l])%list;
     values := map (set_row (columns df) l v) (values df) |}.
Proof.
  unfold setitem, set_row. now destruct (has_label l (columns df)).
Qed.

Lemma length_set_at cols l v row : length (set_at cols l v row) = length row.
Proof.
  revert row; induction cols as [|c cols IH]; intros [|x row]; simpl; auto.
Qed.

Lemma length_set_row cols l v row :
  length row = length cols ->
  length (set_row cols l v row) =
  length (if has_label l cols then cols else (cols ++ [l])%list).
Proof.
  intros Hlen. unfold set_row. destruct (has_label l cols).
  - now rewrite length_set_at.
  - rewrite !length_app. simpl. lia.
Qed.










Section Metadata.

Context `{Dateutil}.



End Metadata.



(** ** The batch combiner *)

Section BatchCombiner.

Context `{Dateutil}.

Lemma fold_sheet_step file_path sheet_names st :
  fold_left (sheet_step file_path) sheet_names st =
  {| out :=
       (out st ++
        flat_map (fun sheet_name =>
                    [ Print ("  Sheet: '" ++ sheet_name ++ "'");
                      Print (fst (process_sheet file_path sheet_name)) ])
                 sheet_names)%list;
     all_dataframes :=
       (all_dataframes st ++
        flat_map (fun sheet_name =>
                    match snd (process_sheet file_path sheet_name) with
                    | Some sheet_df => [sheet_df]
                    | None => []
                    end)
                 sheet_names)%list |}.
Proof.
  revert st; induction sheet_names as [|n names IH]; intros [o fs]; simpl.
  - now rewrite !app_nil_r.
  - rewrite IH. unfold sheet_step, print, append_frame.
    destruct (snd (process_sheet file_path n)); simpl;
      rewrite <- !app_assoc; reflexivity.
Qed.

Lemma file_step_spec st file_path :
  file_step st file_path =
  {| out := (out st ++ log_of_file file_path)%list;
     all_dataframes := (all_dataframes st ++ tables_of_file file_path)%list |}.
Proof.
  destruct st as [o fs].
  unfold file_step, log_of_file, tables_of_file, print.
  destruct (workbook file_path) as [sheets|e]; simpl.
  - rewrite fold_sheet_step; simpl. rewrite length_map.
    repeat (rewrite <- app_assoc; simpl). reflexivity.
  - repeat (rewrite <- app_assoc; simpl). now rewrite ?app_nil_r.
Qed.

Lemma fold_file_step files st :
  fold_left file_step files st =
  {| out := (out st ++ flat_map log_of_file files)%list;
     all_dataframes :=
       (all_dataframes st ++ flat_map tables_of_file files)%list |}.
Proof.
  revert st; induction files as [|f files IH]; intros [o fs]; simpl.
  - now rewrite !app_nil_r.
  - rewrite IH, file_step_spec; simpl. now rewrite <- !app_assoc.
Qed.

Lemma log_of_file_prints file_path : Forall is_print (log_of_file file_path).
Proof.
  unfold log_of_file. constructor; [exact I|].
  destruct (workbook file_path) as [sheets|e].
  - constructor; [exact I|]. apply Forall_app; split.
    + apply Forall_flat_map, Forall_forall. intros n _.
      repeat constructor.
    + repeat constructor.
  - repeat constructor.
Qed.

Lemma logs_print files : Forall is_print (flat_map log_of_file files).
Proof.
  apply Forall_flat_map, Forall_forall. intros f _. apply log_of_file_prints.
Qed.

Lemma skipped_sheets_give_no_table files :
  (forall file_path sheets sheet_name,
      In file_path files -> workbook file_path = Ok sheets ->
      In sheet_name (map fst sheets) ->
      snd (process_sheet file_path sheet_name) = None) ->
  flat_map tables_of_file files = [].
Proof.
  intros Hskipped. induction files as [|f files IH]; simpl; [reflexivity|].
  rewrite IH by (intros g sheets n Hg; apply Hskipped; now right).
  rewrite app_nil_r. unfold tables_of_file.
  destruct (workbook f) as [sheets|e] eqn:Hbook; [|reflexivity].
  assert (Hall : forall n, In n (map fst sheets) ->
                   snd (process_sheet f n) = None)
    by (intros n; apply (Hskipped f sheets n); auto; now left).
  clear Hbook. induction (map fst sheets) as [|n names IHn]; simpl;
    [reflexivity|].
  rewrite (Hall n) by (now left). simpl.
  apply IHn. intros m Hm; apply Hall; now right.
Qed.

End BatchCombiner.

Section BatchRun.

Context `{Dateutil} `{ConcatTypes}.

Variables (folder : Folder) (output_file : string).

(** The whole run, by cases. *)
Lemma combine_excel_files_run :
  combine_excel_files folder output_file =
  match excel_files folder with
  | [] => [Print ("No Excel files found in " ++ folder_path folder)]
  | _ =>
      (found_line folder :: flat_map log_of_file (excel_files folder) ++
       match tables_of_folder folder with
       | [] => [Print "No valid data found to combine"]
       | _ =>
           Print "Combining all valid sheets..." ::
           match combine_frames (tables_of_folder folder) with
           | Raise e => [Uncaught e]
           | Ok combined_df =>
               let output_path :=
                 path_join (folder_path folder) output_file in
               [ ToExcel output_path combined_df;
                 Print (newline ++ rule);
                 Print ("✓ Successfully combined " ++
                        PyStr.of_nat (length (tables_of_folder folder)) ++
                        " sheet(s)");
                 Print ("✓ Total rows: " ++ PyStr.of_nat (len combined_df));
                 Print ("✓ Output saved to: " ++ output_path);
                 Print rule ]
           end
       end)%list
  end.
Proof.
  unfold combine_excel_files, found_line, tables_of_folder.
  change (glob folder ".xls" ++ glob folder ".xlsx")%list
    with (excel_files folder).
  destruct (excel_files folder) as [|f files] eqn:Hfiles; [reflexivity|].
  rewrite fold_file_step. unfold print. cbn [out all_dataframes].
  rewrite !app_nil_l.
  destruct (flat_map tables_of_file (f :: files)) as [|t ts].
  - cbn [out all_dataframes]. rewrite <- app_assoc. reflexivity.
  - cbn [out all_dataframes].
    destruct (combine_frames (t :: ts)) as [combined_df|e];
      repeat (rewrite <- app_assoc; cbn [app]); reflexivity.
Qed.

(** C7.  A run with no matching file prints that no files were found and
    does nothing else.  A run in which no sheet yields a table prints the
    lines of every file and then that no valid data was found, and writes
    nothing.  And whenever a run writes, the write comes after the lines of
    every file, there is at least one table, what is written is the
    combination of all the tables, and only the summary follows. *)
Theorem output_requires_completed_extraction :
  (excel_files folder = [] ->
   combine_excel_files folder output_file =
   [Print ("No Excel files found in " ++ folder_path folder)])
  /\ (excel_files folder <> [] ->
      (forall file_path sheets sheet_name,
          In file_path (excel_files folder) ->
          workbook file_path = Ok sheets ->
          In sheet_name (map fst sheets) ->
          snd (process_sheet file_path sheet_name) = None) ->
      combine_excel_files folder output_file =
      (found_line folder :: flat_map log_of_file (excel_files folder) ++
       [Print "No valid data found to combine"])%list)
  /\ (forall path df,
        In (ToExcel path df) (combine_excel_files folder output_file) ->
        excel_files folder <> [] /\ tables_of_folder folder <> []
        /\ combine_frames (tables_of_folder folder) = Ok df
        /\ path = path_join (folder_path folder) output_file
        /\ exists summary,
             combine_excel_files folder output_file =
             (found_line folder :: flat_map log_of_file (excel_files folder) ++
              Print "Combining all valid sheets..." ::
              ToExcel path df :: summary)%list
             /\ Forall is_print summary)
  /\ (excel_files folder = [] \/ tables_of_folder folder = [] ->
      Forall is_print (combine_excel_files folder output_file)).
Proof.
  pose proof combine_excel_files_run as Hrun.
  assert (Hnot : forall path df (log : list event),
             Forall is_print log -> ~ In (ToExcel path df) log).
  { intros path df log Hlog Hin. rewrite Forall_forall in Hlog.
    exact (Hlog _ Hin). }
  pose proof (logs_print (excel_files folder)) as Hlogs.
  split; [|split; [|split]].
  - intros Hnone. rewrite Hrun, Hnone. reflexivity.
  - intros Hsome Hskipped. rewrite Hrun.
    unfold tables_of_folder.
    rewrite (skipped_sheets_give_no_table _ Hskipped).
    destruct (excel_files folder); [congruence|reflexivity].
  - intros path df Hin. rewrite Hrun in Hin |- *.
    destruct (excel_files folder) as [|f files].
    { destruct Hin as [Hin|[]]; discriminate. }
    split; [discriminate|].
    destruct Hin as [Hin|Hin]; [discriminate|].
    apply in_app_iff in Hin as [Hin|Hin];
      [exfalso; exact (Hnot _ _ _ Hlogs Hin)|].
    destruct (tables_of_folder folder) as [|t ts].
    { destruct Hin as [Hin|[]]; discriminate. }
    split; [discriminate|].
    destruct Hin as [Hin|Hin]; [discriminate|].
    destruct (combine_frames (t :: ts)) as [combined_df|e].
    + cbv zeta in Hin |- *.
      destruct Hin as [[= <- <-]|Hin].
      * split; [reflexivity|]. split; [reflexivity|].
        eexists. split; [reflexivity|]. repeat constructor.
      * exfalso. simpl in Hin.
        repeat (destruct Hin as [Hin|Hin]; [discriminate|]). exact Hin.
    + destruct Hin as [Hin|[]]; discriminate.
  - intros Hempty. rewrite Hrun.
    destruct (excel_files folder) as [|f files]; [repeat constructor|].
    destruct Hempty as [Hempty|Hempty]; [congruence|].
    rewrite Hempty. constructor; [exact I|].
    apply Forall_app; split; [exact Hlogs | repeat constructor].
Qed.

End BatchRun.

Lemma output_requires_completed_extraction_witness :
  combine_excel_files Sample.folder_of_skipped "combined_output.xlsx" =
  [ Print ("Found 1 Excel file(s)" ++ newline);
    Print "Processing: a.xlsx";
    Print "  Found 1 sheet(s)";
    Print "  Sheet: 'Sheet1'";
    Print "    ⚠ Skipped: 'Sl. No.' not found";
    Print "";
    Print "No valid data found to combine" ].
Proof.
  refine (proj1 (proj2 (output_requires_completed_extraction
                          Sample.folder_of_skipped "combined_output.xlsx"))
                _ _).
  - discriminate.
  - intros file_path sheets sheet_name [<-|[]] [= <-] [<-|[]]. reflexivity.
Defined.

(** * Further properties of the script *)

(** ** The terminator locator and the end-column search *)

(** [find_total_row] returns the first row below [start_row] that has a
    total or summary cell in the columns start_col .. end_col, returns
    not-found exactly when no such row exists, and does not raise on a sheet
    that has those columns. *)
Theorem total_row_first_match
  (df : DataFrame) (start_row start_col end_col : nat) :
  rectangular df ->
  end_col < length (columns df) ->
  (forall t,
      find_total_row df start_row start_col end_col = Ok (Some t) <->
      start_row < t < len df
      /\ (exists c v,
            start_col <= c <= end_col
            /\ at_ df t c = Some v /\ terminator_text v = true)
      /\ (forall r c v,
            start_row < r < t -> start_col <= c <= end_col ->
            at_ df r c = Some v -> terminator_text v = false))
  /\ (find_total_row df start_row start_col end_col = Ok None <->
      forall r c v,
        start_row < r -> start_col <= c <= end_col ->
        at_ df r c = Some v -> terminator_text v = false)
  /\ (exists found,
        find_total_row df start_row start_col end_col = Ok found).
Proof.
  intros Hrect Hend.
  assert (Htotal : exists found,
             find_total_row df start_row start_col end_col = Ok found).
  { rewrite find_total_row_scan.
    apply for_range_total. intros r Hr.
    destruct (le_lt_dec start_col (end_col + 1)) as [Hle|Hgt].
    - apply scan_row_total; [exact Hrect| |]; lia.
    - replace (end_col + 1 - start_col) with 0 by lia. simpl. eauto. }
  assert (Hfwd : forall t,
             find_total_row df start_row start_col end_col = Ok (Some t) ->
             start_row < t < len df
             /\ (exists c v,
                   start_col <= c <= end_col
                   /\ at_ df t c = Some v /\ terminator_text v = true)
             /\ (forall r c v,
                   start_row < r < t -> start_col <= c <= end_col ->
                   at_ df r c = Some v -> terminator_text v = false)).
  { intros t Hfound. rewrite find_total_row_scan, scan_rows_Some in Hfound.
    destruct Hfound as (r & c & Hr & Hc & -> & (v & Hv & Ht) & _ & Habove).
    split; [lia|]. split.
    - exists c, v. split; [lia|]. split; assumption.
    - intros r' c' v' Hr' Hc' Hv'.
      destruct (Habove r' c' ltac:(lia) ltac:(lia)) as (w & Hw & Hno).
      congruence. }
  assert (Hnone : find_total_row df start_row start_col end_col = Ok None <->
                  forall r c v,
                    start_row < r -> start_col <= c <= end_col ->
                    at_ df r c = Some v -> terminator_text v = false).
  { rewrite find_total_row_scan, scan_rows_None. split.
    - intros Hall r c v Hr Hc Hv.
      destruct (at_bounds df r c v Hrect Hv) as [Hlen _].
      destruct (Hall r c ltac:(lia) ltac:(lia)) as (w & Hw & Hno). congruence.
    - intros Hall r c Hr Hc.
      destruct (at_defined df r c Hrect ltac:(lia) ltac:(lia)) as (w & Hw).
      exists w. split; [exact Hw|]. apply (Hall r c w); [lia|lia|exact Hw]. }
  split; [|split; [exact Hnone | exact Htotal]].
  intros t. split; [apply Hfwd|].
  intros (Ht & (c & v & Hc & Hv & Hterm) & Habove).
  destruct Htotal as ([t'|] & Hfound).
  - destruct (Hfwd t' Hfound) as (Ht' & (c' & v' & Hc' & Hv' & Hterm') & Habove').
    destruct (Nat.lt_trichotomy t' t) as [Hlt|[->|Hgt]].
    + rewrite (Habove t' c' v') in Hterm' by (auto; lia). discriminate.
    + exact Hfound.
    + rewrite (Habove' t c v) in Hterm by (auto; lia). discriminate.
  - rewrite (proj1 Hnone Hfound t c v) in Hterm by (auto; lia). discriminate.
Qed.

Lemma total_row_first_match_witness :
  find_total_row Sample.with_total 2 1 3 = Ok (Some 5) <->
  2 < 5 < len Sample.with_total
  /\ (exists c v,
        1 <= c <= 3
        /\ at_ Sample.with_total 5 c = Some v /\ terminator_text v = true)
  /\ (forall r c v,
        2 < r < 5 -> 1 <= c <= 3 ->
        at_ Sample.with_total r c = Some v -> terminator_text v = false).
Proof.
  assert (Hrect : rectangular Sample.with_total) by (repeat constructor).
  assert (Hend : 3 < length (columns Sample.with_total)) by (simpl; lia).
  exact (proj1 (total_row_first_match Sample.with_total 2 1 3 Hrect Hend) 5).
Defined.

Section EndColumn.

Context `{Dateutil}.

(** The search for the end column returns the first column at or right of
    [start_col] whose header cell, trimmed, is the text Sample, and
    not-found exactly when there is none, so a Sample cell left of the
    Sl. No. cell does not count; on not-found the sheet is skipped with the
    line about the Sample column. *)
Theorem end_col_first_match (df : DataFrame) (header_row start_col : nat) :
  rectangular df ->
  header_row < len df ->
  (forall e,
      find_end_col df header_row start_col = Ok (Some e) <->
      start_col <= e < length (columns df)
      /\ (exists v, at_ df header_row e = Some v
                    /\ PyStr.strip (str v) = "Sample")
      /\ (forall c v,
            start_col <= c < e -> at_ df header_row c = Some v ->
            PyStr.strip (str v) <> "Sample"))
  /\ (find_end_col df header_row start_col = Ok None <->
      forall c v,
        start_col <= c -> at_ df header_row c = Some v ->
        PyStr.strip (str v) <> "Sample")
  /\ (forall file_path sheet_name,
        read_excel file_path sheet_name = Ok df ->
        find_header_row df = Ok (Some (header_row, start_col)) ->
        find_end_col df header_row start_col = Ok None ->
        process_sheet file_path sheet_name =
        ("    ⚠ Skipped: 'Sample' column not found", None)).
Proof.
  intros Hrect Hrow.
  assert (Htrue : forall v, end_marker_text v = true <->
                            PyStr.strip (str v) = "Sample")
    by (intros v; apply String.eqb_eq).
  assert (Hfalse : forall v, end_marker_text v = false <->
                             PyStr.strip (str v) <> "Sample")
    by (intros v; apply String.eqb_neq).
  split; [|split].
  - intros e. rewrite find_end_col_scan, scan_row_Some. split.
    + intros (c & Hc & -> & (v & Hv & Hmark) & Hleft).
      split; [lia|]. split.
      * exists v. split; [exact Hv|]. now apply Htrue.
      * intros c' v' Hc' Hv'.
        destruct (Hleft c' ltac:(lia)) as (w & Hw & Hno).
        apply Hfalse. congruence.
    + intros (He & (v & Hv & Hmark) & Hleft).
      exists e. split; [lia|]. split; [reflexivity|]. split.
      * exists v. split; [exact Hv|]. now apply Htrue.
      * intros c' Hc'.
        destruct (at_defined df header_row c' Hrect Hrow ltac:(lia))
          as (w & Hw).
        exists w. split; [exact Hw|]. apply Hfalse.
        apply (Hleft c' w); [lia|exact Hw].
  - rewrite find_end_col_scan, scan_row_None. split.
    + intros Hall c v Hc Hv.
      destruct (at_bounds df header_row c v Hrect Hv) as [_ Hlen].
      destruct (Hall c ltac:(lia)) as (w & Hw & Hno).
      apply Hfalse. congruence.
    + intros Hall c Hc.
      destruct (at_defined df header_row c Hrect Hrow ltac:(lia)) as (w & Hw).
      exists w. split; [exact Hw|]. apply Hfalse.
      apply (Hall c w); [lia|exact Hw].
  - intros file_path sheet_name Hread Hheader Hnone.
    unfold process_sheet, process_sheet_try.
    rewrite Hread; cbn [bind]. rewrite Hheader; cbn [bind].
    rewrite Hnone; reflexivity.
Qed.

End EndColumn.

Lemma end_col_first_match_witness :
  find_end_col Sample.with_total 2 1 = Ok (Some 3) <->
  1 <= 3 < length (columns Sample.with_total)
  /\ (exists v, at_ Sample.with_total 2 3 = Some v
                /\ PyStr.strip (str v) = "Sample")
  /\ (forall c v,
        1 <= c < 3 -> at_ Sample.with_total 2 c = Some v ->
        PyStr.strip (str v) <> "Sample").
Proof.
  assert (Hrect : rectangular Sample.with_total) by (repeat constructor).
  assert (Hrow : 2 < len Sample.with_total) by (unfold len; simpl; lia).
  exact (proj1 (end_col_first_match Sample.with_total 2 1 Hrect Hrow) 3).
Defined.

(** ** The fallback locator *)

Lemma row_has_data_cases df r start_col end_col :
  rectangular df -> r < len df -> end_col < length (columns df) ->
  (row_has_data df r start_col end_col = Ok (Some tt)
   /\ has_data df r start_col end_col)
  \/ (row_has_data df r start_col end_col = Ok None
      /\ ~ has_data df r start_col end_col).
Proof.
  intros Hrect Hr Hend. rewrite row_has_data_scan.
  assert (Htotal : exists o,
             for_range (fun c => probe df data_text r c tt)
                       start_col (end_col + 1 - start_col) = Ok o).
  { destruct (le_lt_dec start_col (end_col + 1)) as [Hle|Hgt].
    - apply scan_row_total; [exact Hrect|exact Hr|lia].
    - replace (end_col + 1 - start_col) with 0 by lia. simpl. eauto. }
  destruct Htotal as ([[]|] & Hscan); rewrite Hscan.
  - left. split; [reflexivity|].
    apply (scan_row_Some df data_text r (fun _ => tt)) in Hscan
      as (c & Hc & _ & (v & Hv & Hdata) & _).
    exists c, v. split; [lia|]. split; assumption.
  - right. split; [reflexivity|].
    intros (c & v & Hc & Hv & Hdata).
    rewrite (scan_row_None df data_text r (fun _ => tt)) in Hscan.
    destruct (Hscan c ltac:(lia)) as (w & Hw & Hno). congruence.
Qed.

Section FallbackLoop.

Variables (df : DataFrame) (start_col end_col : nat).
Hypothesis Hrect : rectangular df.
Hypothesis Hend : end_col < length (columns df).

(** The loop once a data row has been seen: it runs to the end of the
    block of data rows it is in. *)
Lemma last_data_loop_in_block n : forall idx p,
  idx + n <= len df ->
  exists L,
    last_data_loop df start_col end_col idx n (Some p) = Ok (Some L)
    /\ ((L = p /\ (0 < n -> ~ has_data df idx start_col end_col))
        \/ (idx <= L < idx + n
            /\ (forall r, idx <= r <= L -> has_data df r start_col end_col)
            /\ (L + 1 < idx + n ->
                ~ has_data df (L + 1) start_col end_col))).
Proof.
  induction n as [|n IH]; intros idx p Hlen; simpl.
  - exists p. split; [reflexivity|]. left. split; [reflexivity|lia].
  - destruct (row_has_data_cases df idx start_col end_col Hrect
                ltac:(lia) Hend) as [[-> Hdata]|[-> Hblank]]; cbn [bind].
    + destruct (IH (S idx) idx ltac:(lia)) as (L & -> & Hspec).
      exists L. split; [reflexivity|]. right.
      destruct Hspec as [[-> Hnext]|(HL & Hrun & Hnext)].
      * split; [lia|]. split.
        -- intros r Hr. replace r with idx by lia. exact Hdata.
        -- intros Hmore. replace (idx + 1) with (S idx) by lia.
           apply Hnext. lia.
      * split; [lia|]. split.
        -- intros r Hr. destruct (Nat.eq_dec r idx) as [->|Hne];
             [exact Hdata | apply Hrun; lia].
        -- intros Hmore. apply Hnext. lia.
    + exists p. split; [reflexivity|]. left. split; [reflexivity|].
      intros _. exact Hblank.
Qed.

(** The loop before any data row: it passes the blank rows and then runs
    through the first block of data rows. *)
Lemma last_data_loop_from_start n : forall idx,
  idx + n <= len df ->
  exists found,
    last_data_loop df start_col end_col idx n None = Ok found
    /\ match found with
       | None =>
           forall r, idx <= r < idx + n ->
                     ~ has_data df r start_col end_col
       | Some L =>
           exists F,
             idx <= F <= L /\ L < idx + n
             /\ (forall r, idx <= r < F ->
                           ~ has_data df r start_col end_col)
             /\ (forall r, F <= r <= L -> has_data df r start_col end_col)
             /\ (L + 1 < idx + n ->
                 ~ has_data df (L + 1) start_col end_col)
       end.
Proof.
  induction n as [|n IH]; intros idx Hlen; simpl.
  - exists None. split; [reflexivity|]. intros r Hr. lia.
  - destruct (row_has_data_cases df idx start_col end_col Hrect
                ltac:(lia) Hend) as [[-> Hdata]|[-> Hblank]]; cbn [bind].
    + destruct (last_data_loop_in_block n (S idx) idx ltac:(lia))
        as (L & -> & Hspec).
      exists (Some L). split; [reflexivity|].
      exists idx.
      destruct Hspec as [[-> Hnext]|(HL & Hrun & Hnext)].
      * split; [lia|]. split; [lia|]. split; [intros r Hr; lia|]. split.
        -- intros r Hr. replace r with idx by lia. exact Hdata.
        -- intros Hmore. replace (idx + 1) with (S idx) by lia.
           apply Hnext. lia.
      * split; [lia|]. split; [lia|]. split; [intros r Hr; lia|]. split.
        -- intros r Hr. destruct (Nat.eq_dec r idx) as [->|Hne];
             [exact Hdata | apply Hrun; lia].
        -- intros Hmore. apply Hnext. lia.
    + destruct (IH (S idx) ltac:(lia)) as (found & -> & Hspec).
      exists found. split; [reflexivity|].
      destruct found as [L|].
      * destruct Hspec as (F & HF & HL & Hbefore & Hrun & Hnext).
        exists F. split; [lia|]. split; [lia|]. split; [|split].
        -- intros r Hr. destruct (Nat.eq_dec r idx) as [->|Hne];
             [exact Hblank | apply Hbefore; lia].
        -- exact Hrun.
        -- intros Hmore. apply Hnext. lia.
      * intros r Hr. destruct (Nat.eq_dec r idx) as [->|Hne];
          [exact Hblank | apply Hspec; lia].
Qed.

End FallbackLoop.

Lemma find_last_data_row_cases
  (df : DataFrame) (start_row start_col end_col : nat) :
  rectangular df ->
  end_col < length (columns df) ->
  exists found,
    find_last_data_row df start_row start_col end_col = Ok found
    /\ match found with
       | None =>
           forall r, start_row < r < len df ->
                     ~ has_data df r start_col end_col
       | Some L =>
           exists F,
             start_row < F <= L /\ L < len df
             /\ (forall r, start_row < r < F ->
                           ~ has_data df r start_col end_col)
             /\ (forall r, F <= r <= L -> has_data df r start_col end_col)
             /\ (L + 1 < len df ->
                 ~ has_data df (L + 1) start_col end_col)
       end.
Proof.
  intros Hrect Hend. unfold find_last_data_row.
  destruct (le_lt_dec (start_row + 1) (len df)) as [Hle|Hgt].
  - destruct (last_data_loop_from_start df start_col end_col Hrect Hend
                (len df - (start_row + 1)) (start_row + 1) ltac:(lia))
      as (found & -> & Hspec).
    exists found. split; [reflexivity|].
    replace (start_row + 1 + (len df - (start_row + 1))) with (len df)
      in Hspec by lia.
    destruct found as [L|].
    + destruct Hspec as (F & HF & HL & Hbefore & Hrun & Hnext).
      exists F. split; [lia|]. split; [lia|]. split; [|split].
      * intros r Hr. apply Hbefore. lia.
      * exact Hrun.
      * exact Hnext.
    + intros r Hr. apply Hspec. lia.
  - replace (len df - (start_row + 1)) with 0 by lia. simpl.
    exists None. split; [reflexivity|]. intros r Hr. lia.
Qed.

(** [find_last_data_row] does not raise on a sheet that has the columns of
    the span.  It returns not-found exactly when no row below [start_row]
    has data in the span; otherwise it passes the blank rows below
    [start_row] and returns the last row of the first block of consecutive
    data rows: data rows below the first blank row after that block are not
    reached. *)
Theorem last_data_row_ends_first_block
  (df : DataFrame) (start_row start_col end_col : nat) :
  rectangular df ->
  end_col < length (columns df) ->
  exists found,
    find_last_data_row df start_row start_col end_col = Ok found
    /\ match found with
       | None =>
           forall r, start_row < r < len df ->
                     ~ has_data df r start_col end_col
       | Some L =>
           exists F,
             start_row < F <= L /\ L < len df
             /\ (forall r, start_row < r < F ->
                           ~ has_data df r start_col end_col)
             /\ (forall r, F <= r <= L -> has_data df r start_col end_col)
             /\ (L + 1 < len df ->
                 ~ has_data df (L + 1) start_col end_col)
       end.
Proof.
  intros Hrect Hend.
  exact (find_last_data_row_cases df start_row start_col end_col Hrect Hend).
Qed.

Lemma last_data_row_ends_first_block_witness :
  exists found,
    find_last_data_row Sample.two_blocks 0 0 2 = Ok found
    /\ match found with
       | None =>
           forall r, 0 < r < len Sample.two_blocks ->
                     ~ has_data Sample.two_blocks r 0 2
       | Some L =>
           exists F,
             0 < F <= L /\ L < len Sample.two_blocks
             /\ (forall r, 0 < r < F -> ~ has_data Sample.two_blocks r 0 2)
             /\ (forall r, F <= r <= L -> has_data Sample.two_blocks r 0 2)
             /\ (L + 1 < len Sample.two_blocks ->
                 ~ has_data Sample.two_blocks (L + 1) 0 2)
       end.
Proof.
  assert (Hrect : rectangular Sample.two_blocks) by (repeat constructor).
  assert (Hend : 2 < length (columns Sample.two_blocks)) by (simpl; lia).
  exact (last_data_row_ends_first_block Sample.two_blocks 0 0 2 Hrect Hend).
Defined.

(** The block it returns on the sample: row 3, not row 5. *)
Example two_blocks_last_data_row :
  find_last_data_row Sample.two_blocks 0 0 2 = Ok (Some 3).
Proof. reflexivity. Qed.

(** ** What a returned table presupposes *)

Lemma rectangular_setitem df l v :
  rectangular df -> rectangular (setitem df l v).
Proof.
  rewrite setitem_rows. unfold rectangular; cbn [columns values].
  rewrite !Forall_forall. intros Hrect row Hrow.
  apply in_map_iff in Hrow as (row0 & <- & Hrow0).
  apply length_set_row. now apply Hrect.
Qed.

Section ReturnedTable.

Context `{Dateutil}.

Lemma process_sheet_Some_inv file_path sheet_name table :
  snd (process_sheet file_path sheet_name) = Some table ->
  exists df header_row start_col end_col total_row,
    read_excel file_path sheet_name = Ok df
    /\ find_header_row df = Ok (Some (header_row, start_col))
    /\ find_end_col df header_row start_col = Ok (Some end_col)
    /\ find_total_row df header_row start_col end_col = Ok (Some total_row)
    /\ header_row + 1 < total_row.
Proof.
  unfold process_sheet, process_sheet_try. intros Hsome.
  destruct (read_excel file_path sheet_name) as [df|e] eqn:Hread;
    cbn [bind snd] in Hsome; [|discriminate].
  destruct (find_header_row df) as [[[header_row start_col]|]|e] eqn:Hheader;
    cbn [bind snd] in Hsome; try discriminate.
  destruct (find_end_col df header_row start_col) as [[end_col|]|e] eqn:Hend;
    cbn [bind snd] in Hsome; try discriminate.
  destruct (find_total_row df header_row start_col end_col)
    as [[total_row|]|e] eqn:Htotal; cbn [bind snd] in Hsome;
    try discriminate.
  - cbn [py_ge bind] in Hsome.
    destruct (Nat.leb_spec total_row (header_row + 1)) as [Hle|Hlt];
      cbn [snd] in Hsome; [discriminate|].
    exists df, header_row, start_col, end_col, total_row. auto.
  - destruct (find_last_data_row df header_row start_col end_col)
      as [[last_data_row|]|e]; cbn [bind py_ge snd] in Hsome; discriminate.
Qed.

(** [process_sheet] returns a table only for a sheet that could be read, in
    which the header marker, the Sample column and a terminator row were all
    found, with at least one row between the header and the terminator; a
    sheet without a total or summary row never yields a table.  The table it
    returns has at least one row. *)
Theorem table_needs_terminator
  (file_path : ExcelFile) (sheet_name : string) (table : DataFrame) :
  snd (process_sheet file_path sheet_name) = Some table ->
  (exists df header_row start_col end_col total_row,
      read_excel file_path sheet_name = Ok df
      /\ find_header_row df = Ok (Some (header_row, start_col))
      /\ find_end_col df header_row start_col = Ok (Some end_col)
      /\ find_total_row df header_row start_col end_col = Ok (Some total_row)
      /\ header_row + 1 < total_row)
  /\ 0 < len table.
Proof.
  intros Hsome. split; [exact (process_sheet_Some_inv _ _ _ Hsome)|].
  unfold process_sheet, process_sheet_try in Hsome.
  destruct (read_excel file_path sheet_name) as [df|e];
    cbn [bind snd] in Hsome; [|discriminate].
  destruct (find_header_row df) as [[[header_row start_col]|]|e];
    cbn [bind snd] in Hsome; try discriminate.
  destruct (find_end_col df header_row start_col) as [[end_col|]|e];
    cbn [bind snd] in Hsome; try discriminate.
  destruct (find_total_row df header_row start_col end_col)
    as [[total_row|]|e]; cbn [bind snd] in Hsome; try discriminate.
  - cbn [py_ge bind] in Hsome.
    destruct (total_row <=? header_row + 1);
      cbn [snd] in Hsome; [discriminate|].
    destruct (iloc_row df header_row start_col (end_col + 1)) as [cells|e];
      cbn [bind snd] in Hsome; [|discriminate].
    match type of Hsome with
    | context [set_columns ?d ?h] =>
        destruct (set_columns d h) as [data_df|e]
    end; cbn [bind snd] in Hsome; [|discriminate].
    match type of Hsome with
    | context [if ?n =? 0 then _ else _] =>
        destruct (Nat.eqb_spec n 0) as [Hzero|Hpos]
    end; cbn [snd] in Hsome; [discriminate|].
    injection Hsome as <-. rewrite !len_setitem. lia.
  - destruct (find_last_data_row df header_row start_col end_col)
      as [[last_data_row|]|e]; cbn [bind py_ge snd] in Hsome; discriminate.
Qed.

End ReturnedTable.

Lemma table_needs_terminator_witness :
  (exists df header_row start_col end_col total_row,
      read_excel (Sample.book "a.xlsx" "28-10-25" Sample.sheet_a) "28-10-25"
        = Ok df
      /\ find_header_row df = Ok (Some (header_row, start_col))
      /\ find_end_col df header_row start_col = Ok (Some end_col)
      /\ find_total_row df header_row start_col end_col = Ok (Some total_row)
      /\ header_row + 1 < total_row)
  /\ 0 < len Sample.table_a.
Proof.
  apply (table_needs_terminator
           (Sample.book "a.xlsx" "28-10-25" Sample.sheet_a) "28-10-25"
           Sample.table_a).
  reflexivity.
Defined.

(** ** The shape of a returned table *)

Lemma In_firstn_list {A} (x : A) n xs : In x (firstn n xs) -> In x xs.
Proof.
  revert xs; induction n as [|n IH]; intros [|y xs]; simpl; try tauto.
  intros [->|Hin]; auto.
Qed.

Lemma In_skipn_list {A} (x : A) n xs : In x (skipn n xs) -> In x xs.
Proof.
  revert xs; induction n as [|n IH]; intros [|y xs]; simpl; auto.
Qed.

Lemma In_slice {A} (x : A) lo hi xs : In x (slice lo hi xs) -> In x xs.
Proof.
  unfold slice. intros Hin. eapply In_skipn_list, In_firstn_list, Hin.
Qed.

Lemma setitem_new df l v :
  has_label l (columns df) = false ->
  setitem df l v =
  {| columns := (columns df ++ [l])%list;
     values := map (fun row => (row ++ [v])%list) (values df) |}.
Proof. intros Hnew. unfold setitem. now rewrite Hnew. Qed.

Lemma setitem_columns_eq df l v :
  columns (setitem df l v) =
  (columns df ++ (if has_label l (columns df) then [] else [l]))%list.
Proof.
  rewrite setitem_rows; cbn [columns].
  destruct (has_label l (columns df)); [now rewrite app_nil_r|reflexivity].
Qed.

Lemma has_label_map_LStr s ss :
  has_label (LStr s) (map LStr ss) = true <-> In s ss.
Proof.
  rewrite has_label_In, in_map_iff. split.
  - intros (x & [= ->] & Hx). exact Hx.
  - intros Hin. exists s. auto.
Qed.

Section TableShape.

Context `{Dateutil}.

Variables (file_path : ExcelFile) (sheet_name : string) (df : DataFrame).
Variables (header_row start_col end_col : nat).

Hypothesis Hrect : rectangular df.
Hypothesis Hread : read_excel file_path sheet_name = Ok df.
Hypothesis Hheader : find_header_row df = Ok (Some (header_row, start_col)).
Hypothesis Hend : find_end_col df header_row start_col = Ok (Some end_col).

Lemma header_cells_exist :
  nth_error (values df) header_row = Some (nth header_row (values df) []).
Proof.
  apply nth_error_nth'.
  destruct (header_found_bounds _ _ _ Hheader) as [Hrow _]. exact Hrow.
Qed.

Lemma returned_table_form table :
  snd (process_sheet file_path sheet_name) = Some table ->
  exists total_row,
    find_total_row df header_row start_col end_col = Ok (Some total_row)
    /\ table =
       setitem
         (setitem
            (setitem
               {| columns :=
                    map LStr
                      (map (fun v => PyStr.strip (str v))
                         (slice start_col (end_col + 1)
                            (nth header_row (values df) [])));
                  values :=
                    filter (fun row => negb (fully_blank row))
                      (map (slice start_col (end_col + 1))
                         (slice (header_row + 1) total_row (values df))) |}
               (LStr "Source_File") (Str (name file_path)))
            (LStr "Sheet_Name") (Str sheet_name))
         (LStr "Date") (Str (convert_sheet_name_to_date sheet_name)).
Proof.
  intros Hsome.
  destruct (process_sheet_Some_inv _ _ _ Hsome)
    as (df' & h & c & e & total_row & Hread' & Hheader' & Hend' & Htotal & _).
  rewrite Hread in Hread'. injection Hread' as <-.
  rewrite Hheader in Hheader'. injection Hheader' as <- <-.
  rewrite Hend in Hend'. injection Hend' as <-.
  exists total_row. split; [exact Htotal|].
  rewrite (process_sheet_with_total file_path sheet_name df header_row
             start_col end_col total_row _ Hrect Hread Hheader Hend Htotal
             header_cells_exist) in Hsome.
  destruct (total_row <=? header_row + 1); cbn [snd] in Hsome;
    [discriminate|].
  cbv zeta in Hsome.
  match type of Hsome with
  | context [if ?b then _ else _] => destruct b
  end; cbn [snd] in Hsome; [discriminate|].
  injection Hsome as <-. reflexivity.
Qed.

Lemma base_table_rectangular total_row :
  rectangular
    {| columns :=
         map LStr
           (map (fun v => PyStr.strip (str v))
              (slice start_col (end_col + 1)
                 (nth header_row (values df) [])));
       values :=
         filter (fun row => negb (fully_blank row))
           (map (slice start_col (end_col + 1))
              (slice (header_row + 1) total_row (values df))) |}.
Proof.
  unfold rectangular in *. cbn [columns values].
  rewrite Forall_forall in *. intros row Hrow.
  apply filter_In in Hrow as [Hrow _].
  apply in_map_iff in Hrow as (row0 & <- & Hrow0).
  apply In_slice in Hrow0.
  rewrite !length_map, !length_slice.
  rewrite (Hrect row0 Hrow0).
  rewrite (Hrect _ (nth_error_In _ _ header_cells_exist)). reflexivity.
Qed.


(** The table returned for a sheet is rectangular; its columns are the
    trimmed header cells from the Sl. No. column to the Sample column, in
    the order of the sheet, followed by those of Source_File, Sheet_Name and
    Date that are not header labels already. *)
Theorem returned_table_columns (table : DataFrame) :
  snd (process_sheet file_path sheet_name) = Some table ->
  let headers :=
    map (fun v => LStr (PyStr.strip (str v)))
        (slice start_col (end_col + 1) (nth header_row (values df) [])) in
  columns table =
    (headers ++
     filter (fun m => negb (has_label m headers))
            [LStr "Source_File"; LStr "Sheet_Name"; LStr "Date"])%list
  /\ rectangular table.
Proof.
  intros Hsome headers.
  destruct (returned_table_form table Hsome) as (total_row & _ & ->).
  split.
  - rewrite !setitem_columns_eq. cbn [columns]. rewrite map_map.
    fold headers. rewrite !has_label_app. cbn [filter].
    destruct (has_label (LStr "Source_File") headers),
             (has_label (LStr "Sheet_Name") headers),
             (has_label (LStr "Date") headers);
      simpl; rewrite <- ?app_assoc, ?app_nil_r; reflexivity.
  - do 3 apply rectangular_setitem. apply base_table_rectangular.
Qed.

(** When no header label is Source_File, Sheet_Name or Date, the rows of
    the returned table are the rows H+1 .. T-1 of the sheet, cut to the
    columns from Sl. No. to Sample, in their order and unchanged, without
    those that are all missing or all empty, each followed by the file
    name, the sheet name and the derived date. *)
Theorem returned_table_rows (table : DataFrame) (total_row : nat) :
  find_total_row df header_row start_col end_col = Ok (Some total_row) ->
  snd (process_sheet file_path sheet_name) = Some table ->
  let headers :=
    map (fun v => PyStr.strip (str v))
        (slice start_col (end_col + 1) (nth header_row (values df) [])) in
  ~ In "Source_File" headers ->
  ~ In "Sheet_Name" headers ->
  ~ In "Date" headers ->
  values table =
  map (fun row =>
         (row ++ [ Str (name file_path); Str sheet_name;
                   Str (convert_sheet_name_to_date sheet_name) ])%list)
      (filter (fun row => negb (fully_blank row))
         (map (slice start_col (end_col + 1))
            (slice (header_row + 1) total_row (values df)))).
Proof.
  intros Htotal Hsome headers Hsf Hsn Hd.
  destruct (returned_table_form table Hsome) as (total_row' & Htotal' & ->).
  rewrite Htotal in Htotal'. injection Htotal' as <-.
  fold headers.
  assert (Hno : forall s, ~ In s headers ->
                  has_label (LStr s) (map LStr headers) = false).
  { intros s Hs. apply not_true_is_false. now rewrite has_label_map_LStr. }
  rewrite (setitem_new _ (LStr "Source_File")) by (apply Hno; exact Hsf).
  rewrite (setitem_new _ (LStr "Sheet_Name")).
  2:{ cbn [columns]. rewrite has_label_app, (Hno _ Hsn). reflexivity. }
  rewrite (setitem_new _ (LStr "Date")).
  2:{ cbn [columns]. rewrite !has_label_app, (Hno _ Hd). reflexivity. }
  cbn [values]. rewrite !map_map. apply map_ext. intros row.
  rewrite <- !app_assoc. reflexivity.
Qed.

End TableShape.

Lemma returned_table_columns_witness :
  columns Sample.table_with_date =
    [LStr "Sl. No."; LStr "Date"; LStr "Sample";
     LStr "Source_File"; LStr "Sheet_Name"]
  /\ rectangular Sample.table_with_date.
Proof.
  assert (Hrect : rectangular Sample.with_date) by (repeat constructor).
  exact (returned_table_columns
           (Sample.book "a.xlsx" "28-10-25" Sample.with_date) "28-10-25"
           Sample.with_date 0 0 2 Hrect eq_refl eq_refl eq_refl
           Sample.table_with_date eq_refl).
Defined.

Lemma returned_table_rows_witness :
  values Sample.table_b =
  [ [Int 1; Str "bob"; Str "late"; Str "s2";
     Str "b.xlsx"; Str "28-10-25"; Str "2025-10-28"] ].
Proof.
  assert (Hrect : rectangular Sample.sheet_b) by (repeat constructor).
  assert (Hsome : snd (process_sheet
                         (Sample.book "b.xlsx" "28-10-25" Sample.sheet_b)
                         "28-10-25") = Some Sample.table_b)
    by reflexivity.
  apply (returned_table_rows
           (Sample.book "b.xlsx" "28-10-25" Sample.sheet_b) "28-10-25"
           Sample.sheet_b 0 0 3 Hrect eq_refl eq_refl eq_refl
           Sample.table_b 2 eq_refl Hsome);
    simpl; intuition discriminate.
Defined.

(** ** The combined table *)






Section CombinedTable.

Context `{Dateutil} `{ConcatTypes}.







End CombinedTable.

(** The tables of the example are what the sheet extractor returns. *)
Example sample_tables_are_extracted :
  snd (process_sheet (Sample.book "a.xlsx" "28-10-25" Sample.sheet_a)
                     "28-10-25") = Some Sample.table_a
  /\ snd (process_sheet (Sample.book "b.xlsx" "28-10-25" Sample.sheet_b)
                        "28-10-25") = Some Sample.table_b.
Proof. split; vm_compute; reflexivity. Qed.





(** A column of whole numbers that one sheet has and the other lacks has to
    hold a missing value, and pandas types it float64: the 5 of the sheet
    is 5.0 in the combined table.  The label 2024 is the seventh column of
    the concatenation, after the six labels of the first table. *)
Example integer_column_is_stored_as_floats :
  exists t,
    extracted (Sample.book "c.xlsx" "28-10-25" Sample.with_count) "28-10-25" t
    /\ combine_frames (H0 := {| float_column := fun _ j => j =? 6 |})
         [Sample.table_a; t] =
       Ok {| columns :=
               [LStr "Sl. No."; LStr "Name"; LStr "Sample"; LStr "2024";
                LStr "Source_File"; LStr "Sheet_Name"; LStr "Date"];
             values :=
               [ [Int 1; Str "ann"; Str "s1"; NaN;
                  Str "a.xlsx"; Str "28-10-25"; Str "2025-10-28"];
                 [Int 1; NaN; Str "s3"; Float 5;
                  Str "c.xlsx"; Str "28-10-25"; Str "2025-10-28"] ] |}.
Proof.
  eexists. split.
  - exists Sample.with_count. split; [reflexivity|].
    split; [repeat constructor|]. vm_compute; reflexivity.
  - reflexivity.
Qed.

(** The sheet with a Date column gives the sample table. *)
Example date_column_is_overwritten :
  snd (process_sheet (Sample.book "a.xlsx" "28-10-25" Sample.with_date)
                     "28-10-25") = Some Sample.table_with_date.
Proof. vm_compute. reflexivity. Qed.



(** ** A run that writes *)


Section WritingRun.

Context `{Dateutil} `{ConcatTypes}.



(** When a run writes, and what. *)
Lemma run_writes_iff folder output_file path df :
  In (ToExcel path df) (combine_excel_files folder output_file) <->
  tables_of_folder folder <> []
  /\ combine_frames (tables_of_folder folder) = Ok df
  /\ path = path_join (folder_path folder) output_file.
Proof.
  rewrite combine_excel_files_run.
  assert (Hnot : forall log : list event,
             Forall is_print log -> ~ In (ToExcel path df) log).
  { intros log Hlog Hin. rewrite Forall_forall in Hlog. exact (Hlog _ Hin). }
  pose proof (logs_print (excel_files folder)) as Hlogs.
  unfold tables_of_folder at 1 2 3.
  destruct (excel_files folder) as [|f files] eqn:Hfiles.
  - simpl. split.
    + intros [Hin|[]]; discriminate.
    + intros (Hne & _). unfold tables_of_folder in Hne.
      rewrite Hfiles in Hne. now destruct Hne.
  - unfold tables_of_folder. rewrite Hfiles.
    destruct (flat_map tables_of_file (f :: files)) as [|t ts] eqn:Htables.
    + split.
      * intros [Hin|Hin]; [discriminate|].
        apply in_app_iff in Hin as [Hin|[Hin|[]]];
          [exfalso; exact (Hnot _ Hlogs Hin) | discriminate].
      * intros (Hne & _). now destruct Hne.
    + destruct (combine_frames (t :: ts)) as [combined_df|e]; cbv zeta.
      * split.
        -- intros [Hin|Hin]; [discriminate|].
           apply in_app_iff in Hin as [Hin|Hin];
             [exfalso; exact (Hnot _ Hlogs Hin)|].
           destruct Hin as [Hin|Hin]; [discriminate|].
           destruct Hin as [[= <- <-]|Hin].
           ++ split; [discriminate|]. split; reflexivity.
           ++ exfalso. simpl in Hin.
              repeat (destruct Hin as [Hin|Hin]; [discriminate|]). exact Hin.
        -- intros (_ & [= <-] & ->).
           right. apply in_app_iff. right. right. now left.
      * split.
        -- intros [Hin|Hin]; [discriminate|].
           apply in_app_iff in Hin as [Hin|Hin];
             [exfalso; exact (Hnot _ Hlogs Hin)|].
           destruct Hin as [Hin|[Hin|[]]]; discriminate.
        -- intros (_ & Hok & _). discriminate.
Qed.


Lemma tables_skip_unreadable files :
  flat_map tables_of_file (filter readable files) =
  flat_map tables_of_file files.
Proof.
  induction files as [|f files IH]; simpl; [reflexivity|].
  destruct (readable f) eqn:Hreadable; simpl; rewrite IH; [reflexivity|].
  assert (Hnone : tables_of_file f = []).
  { unfold tables_of_file. unfold readable in Hreadable.
    destruct (workbook f); [discriminate|reflexivity]. }
  now rewrite Hnone.
Qed.

(** A file that does not open changes nothing in what is written: the run
    collects the same tables, and writes the same table to the same path,
    as a run on the folder without the files that do not open. *)
Theorem unreadable_files_change_no_output
  (folder : Folder) (output_file : string) :
  tables_of_folder (without_unreadable folder) = tables_of_folder folder
  /\ forall path df,
       In (ToExcel path df) (combine_excel_files folder output_file) <->
       In (ToExcel path df)
          (combine_excel_files (without_unreadable folder) output_file).
Proof.
  assert (Htables :
            tables_of_folder (without_unreadable folder) =
            tables_of_folder folder).
  { unfold tables_of_folder, excel_files, glob, without_unreadable.
    cbn [listing]. rewrite !flat_map_app.
    rewrite (filter_commute _ readable (listing folder)).
    rewrite (filter_commute _ readable (listing folder)).
    now rewrite !tables_skip_unreadable. }
  split; [exact Htables|].
  intros path df. rewrite !run_writes_iff, Htables. reflexivity.
Qed.

End WritingRun.


(** ** The files of a run *)

Lemma rev_acc_app s acc : PyStr.rev_acc s acc = PyStr.reverse s ++ acc.
Proof.
  unfold PyStr.reverse. revert acc.
  induction s as [|a s IH]; intros acc; simpl; [reflexivity|].
  rewrite IH, (IH (String a "")).
  generalize (PyStr.rev_acc s ""). intros r.
  induction r as [|b r IHr]; simpl; [reflexivity|]. now rewrite IHr.
Qed.

Lemma reverse_cons a s :
  PyStr.reverse (String a s) = PyStr.reverse s ++ String a "".
Proof. unfold PyStr.reverse at 1. simpl. apply rev_acc_app. Qed.

Lemma append_assoc (a b c : string) : (a ++ b) ++ c = a ++ (b ++ c).
Proof. induction a as [|x a IH]; simpl; [reflexivity|]. now rewrite IH. Qed.

Lemma append_empty_r (a : string) : a ++ "" = a.
Proof. induction a as [|x a IH]; simpl; [reflexivity|]. now rewrite IH. Qed.

Lemma reverse_append a b :
  PyStr.reverse (a ++ b) = PyStr.reverse b ++ PyStr.reverse a.
Proof.
  induction a as [|x a IH]; simpl.
  - unfold PyStr.reverse at 3. simpl. now rewrite append_empty_r.
  - now rewrite !reverse_cons, IH, append_assoc.
Qed.

Lemma prefix_append p x y :
  prefix p x = true -> prefix p (x ++ y) = true.
Proof.
  revert x; induction p as [|a p IH]; intros x.
  - intros _. now destruct (x ++ y).
  - destruct x as [|b x]; simpl; [discriminate|].
    destruct (ascii_dec a b); [apply IH|discriminate].
Qed.

Lemma endswith_append a b suffix :
  PyStr.endswith b suffix = true -> PyStr.endswith (a ++ b) suffix = true.
Proof.
  unfold PyStr.endswith. rewrite reverse_append. apply prefix_append.
Qed.

Lemma prefix_cons a p b s :
  prefix (String a p) (String b s) =
  if ascii_dec a b then prefix p s else false.
Proof. reflexivity. Qed.

Lemma xls_is_not_xlsx s :
  PyStr.endswith s ".xls" = true -> PyStr.endswith s ".xlsx" = false.
Proof.
  unfold PyStr.endswith.
  change (PyStr.reverse ".xls") with "slx.".
  change (PyStr.reverse ".xlsx") with "xslx.".
  destruct (PyStr.reverse s) as [|a r]; [discriminate|].
  rewrite !prefix_cons.
  destruct (ascii_dec "s" a) as [<-|Hne]; [|discriminate].
  intros _. destruct (ascii_dec "x" "s"); [discriminate|reflexivity].
Qed.

Lemma NoDup_names_filters {A} (g : A -> string) (p q : A -> bool) xs :
  NoDup (map g xs) ->
  (forall x, p x = true -> q x = false) ->
  NoDup (map g (filter p xs ++ filter q xs)).
Proof.
  intros Hnodup Hdisjoint. rewrite map_app.
  assert (Hsub : forall r, NoDup (map g (filter r xs))).
  { intros r. clear Hdisjoint. induction xs as [|x xs IH]; simpl;
      [constructor|].
    inversion Hnodup as [|? ? Hnotin Hrest]; subst.
    destruct (r x); simpl; [|now apply IH].
    constructor; [|now apply IH].
    intros Hin. apply Hnotin. apply in_map_iff in Hin as (y & Hy & Hin).
    apply filter_In in Hin as [Hin _]. apply in_map_iff. eauto. }
  apply NoDup_app; [apply Hsub|apply Hsub|].
  intros s Hp Hq.
  apply in_map_iff in Hp as (x & <- & Hx). apply filter_In in Hx as [Hx Hpx].
  apply in_map_iff in Hq as (y & Heq & Hy). apply filter_In in Hy as [Hy Hqy].
  assert (x = y).
  { clear - Hnodup Hx Hy Heq. induction xs as [|z xs IH]; [destruct Hx|].
    simpl in Hnodup. inversion Hnodup as [|? ? Hnotin Hrest]; subst.
    destruct Hx as [->|Hx], Hy as [->|Hy]; auto.
    - exfalso. apply Hnotin. rewrite <- Heq. now apply in_map.
    - exfalso. apply Hnotin. rewrite Heq. now apply in_map. }
  subst y. rewrite (Hdisjoint x Hpx) in Hqy. discriminate.
Qed.

(** The files a run works through are the entries of the folder whose name
    ends in .xls or in .xlsx, and no others; if the names in the folder are
    distinct, no file is worked through twice. *)
Theorem each_matching_file_once (folder : Folder) :
  NoDup (map name (listing folder)) ->
  NoDup (map name (excel_files folder))
  /\ forall file_path,
       In file_path (excel_files folder) <->
       In file_path (listing folder)
       /\ (PyStr.endswith (name file_path) ".xls" = true
           \/ PyStr.endswith (name file_path) ".xlsx" = true).
Proof.
  intros Hnames. split.
  - unfold excel_files, glob. apply NoDup_names_filters; [exact Hnames|].
    intros f. apply xls_is_not_xlsx.
  - intros f. unfold excel_files, glob.
    rewrite in_app_iff, !filter_In. tauto.
Qed.

Lemma each_matching_file_once_witness :
  NoDup (map name (excel_files Sample.folder_ab)).
Proof.
  apply (each_matching_file_once Sample.folder_ab).
  simpl. repeat constructor; simpl; intuition discriminate.
Defined.

(** ** The entry point *)

Section EntryPoint.

Context `{Dateutil} `{ConcatTypes}.

Lemma path_join_keeps_suffix a b suffix :
  PyStr.endswith b suffix = true ->
  PyStr.endswith (path_join a b) suffix = true.
Proof.
  intros Hb. unfold path_join.
  destruct (PyStr.startswith b "/"); [exact Hb|].
  destruct (String.eqb a "" || PyStr.endswith a "/").
  - now apply endswith_append.
  - apply endswith_append. now apply (endswith_append "/").
Qed.

(** Started from the command line, the script writes only when the folder
    the user typed exists, and what it writes always goes to a path that
    ends in .xlsx: an empty answer to the second prompt gives
    combined_output.xlsx, and a name without that ending gets it added.
    When the folder does not exist the script prints the error line and
    stops without reading the second answer or the disk. *)
Theorem main_writes_xlsx
  (path_exists : string -> bool) (disk : string -> list ExcelFile)
  (typed_folder typed_name : string) :
  (forall path df,
      In (Say (ToExcel path df))
         (main path_exists disk typed_folder typed_name) ->
      path_exists (PyStr.strip typed_folder) = true
      /\ PyStr.endswith path ".xlsx" = true)
  /\ (path_exists (PyStr.strip typed_folder) = false ->
      main path_exists disk typed_folder typed_name =
      [ Say (Print
          "Excel Files Combiner - All Sheets with Dynamic Header Detection");
        Say (Print rule);
        Ask (newline ++ "Enter the folder path containing Excel files: ");
        Say (Print ("Error: Folder '" ++ PyStr.strip typed_folder ++
                    "' does not exist")) ])
  /\ (path_exists (PyStr.strip typed_folder) = true ->
      PyStr.strip typed_name = "" ->
      main path_exists disk typed_folder typed_name =
      Say (Print
        "Excel Files Combiner - All Sheets with Dynamic Header Detection")
      :: Say (Print rule)
      :: Ask (newline ++ "Enter the folder path containing Excel files: ")
      :: Ask "Enter output filename (press Enter for 'combined_output.xlsx'): "
      :: Say (Print "")
      :: map Say
           (combine_excel_files
              {| folder_path := PyStr.strip typed_folder;
                 listing := disk (PyStr.strip typed_folder) |}
              "combined_output.xlsx")).
Proof.
  split; [|split].
  - intros path df Hin. unfold main in Hin.
    destruct Hin as [Hin|[Hin|[Hin|Hin]]]; try discriminate.
    cbv zeta in Hin.
    destruct (path_exists (PyStr.strip typed_folder)).
    2:{ destruct Hin as [Hin|[]]; discriminate. }
    split; [reflexivity|].
    destruct Hin as [Hin|[Hin|Hin]]; try discriminate.
    apply in_map_iff in Hin as (ev & [= ->] & Hin).
    apply run_writes_iff in Hin as (_ & _ & ->). cbn [folder_path].
    apply path_join_keeps_suffix.
    destruct (String.eqb (PyStr.strip typed_name) ""); [reflexivity|].
    destruct (PyStr.endswith (PyStr.strip typed_name) ".xlsx") eqn:Hext;
      cbn [negb]; [exact Hext|].
    now apply endswith_append.
  - intros Hmissing. unfold main. cbv zeta. now rewrite Hmissing.
  - intros Hexists Hempty. unfold main. cbv zeta.
    now rewrite Hexists, Hempty.
Qed.

End EntryPoint.

(** ** Dots in a sheet name *)

Lemma replace_dot_cons a s :
  PyStr.replace "." "-" (String a s) =
  if Ascii.eqb a "." then String "-" (PyStr.replace "." "-" s)
  else String a (PyStr.replace "." "-" s).
Proof. reflexivity. Qed.

Lemma prefix_empty s : prefix "" s = true.
Proof. now destruct s. Qed.

Lemma prefix_of_replaced w s :
  plain w = true -> prefix w (PyStr.replace "." "-" s) = prefix w s.
Proof.
  revert s; induction w as [|a w IH]; intros s Hplain.
  - now rewrite !prefix_empty.
  - simpl in Hplain. apply andb_true_iff in Hplain as [Hchars Hplain].
    apply andb_true_iff in Hchars as [Hdot Hhyphen].
    apply negb_true_iff in Hdot, Hhyphen.
    destruct s as [|b s]; [reflexivity|].
    rewrite replace_dot_cons.
    destruct (Ascii.eqb_spec b ".") as [->|Hb]; rewrite !prefix_cons.
    + destruct (ascii_dec a "-") as [->|_];
        [rewrite Ascii.eqb_refl in Hhyphen; discriminate|].
      destruct (ascii_dec a ".") as [->|_];
        [rewrite Ascii.eqb_refl in Hdot; discriminate|reflexivity].
    + destruct (ascii_dec a b); [apply IH; exact Hplain|reflexivity].
Qed.

Lemma drop_of_replaced n s :
  PyStr.drop n (PyStr.replace "." "-" s) =
  PyStr.replace "." "-" (PyStr.drop n s).
Proof.
  revert s; induction n as [|n IH]; intros [|b s]; try reflexivity.
  rewrite replace_dot_cons.
  destruct (Ascii.eqb b "."); simpl; apply IH.
Qed.

Lemma length_of_replaced s :
  String.length (PyStr.replace "." "-" s) = String.length s.
Proof.
  induction s as [|b s IH]; [reflexivity|].
  rewrite replace_dot_cons. destruct (Ascii.eqb b "."); simpl; now rewrite IH.
Qed.

Lemma drop_one_of_replaced seqs s :
  forallb plain seqs = true ->
  PyStr.drop_one seqs (PyStr.replace "." "-" s) =
  option_map (PyStr.replace "." "-") (PyStr.drop_one seqs s).
Proof.
  induction seqs as [|w seqs IH]; intros Hplain; simpl; [reflexivity|].
  simpl in Hplain. apply andb_true_iff in Hplain as [Hw Hplain].
  rewrite (prefix_of_replaced w s Hw).
  destruct (prefix w s); simpl.
  - now rewrite drop_of_replaced.
  - now apply IH.
Qed.

Lemma drop_all_of_replaced fuel seqs s :
  forallb plain seqs = true ->
  PyStr.drop_all fuel seqs (PyStr.replace "." "-" s) =
  PyStr.replace "." "-" (PyStr.drop_all fuel seqs s).
Proof.
  intros Hplain. revert s; induction fuel as [|fuel IH]; intros s; simpl;
    [reflexivity|].
  rewrite (drop_one_of_replaced seqs s Hplain).
  destruct (PyStr.drop_one seqs s) as [s'|]; simpl; [apply IH|reflexivity].
Qed.

Lemma rev_acc_of_replaced s acc :
  PyStr.rev_acc (PyStr.replace "." "-" s) (PyStr.replace "." "-" acc) =
  PyStr.replace "." "-" (PyStr.rev_acc s acc).
Proof.
  revert acc; induction s as [|b s IH]; intros acc; [reflexivity|].
  rewrite replace_dot_cons. simpl PyStr.rev_acc at 2. rewrite <- IH.
  rewrite replace_dot_cons. now destruct (Ascii.eqb b ".").
Qed.

Lemma reverse_of_replaced s :
  PyStr.reverse (PyStr.replace "." "-" s) =
  PyStr.replace "." "-" (PyStr.reverse s).
Proof. apply (rev_acc_of_replaced s ""). Qed.

Lemma strip_of_replaced s :
  PyStr.strip (PyStr.replace "." "-" s) =
  PyStr.replace "." "-" (PyStr.strip s).
Proof.
  assert (Hleft : forall t,
             PyStr.lstrip (PyStr.replace "." "-" t) =
             PyStr.replace "." "-" (PyStr.lstrip t)).
  { intros t. unfold PyStr.lstrip. rewrite length_of_replaced.
    apply drop_all_of_replaced. reflexivity. }
  assert (Hright : forall t,
             PyStr.rstrip (PyStr.replace "." "-" t) =
             PyStr.replace "." "-" (PyStr.rstrip t)).
  { intros t. unfold PyStr.rstrip.
    rewrite length_of_replaced, reverse_of_replaced.
    rewrite drop_all_of_replaced by reflexivity.
    apply reverse_of_replaced. }
  unfold PyStr.strip. now rewrite Hleft, Hright.
Qed.

Lemma replace_dot_twice s :
  PyStr.replace "." "-" (PyStr.replace "." "-" s) = PyStr.replace "." "-" s.
Proof.
  induction s as [|b s IH]; [reflexivity|].
  rewrite replace_dot_cons.
  destruct (Ascii.eqb b ".") eqn:Hb; rewrite replace_dot_cons.
  - simpl. now rewrite IH.
  - now rewrite Hb, IH.
Qed.

Section Dots.

Context `{Dateutil}.

(** Whatever the parser, writing the separators of a sheet name as dots or
    as hyphens gives the same derived date, or the same PARSE_ERROR
    string. *)
Theorem dots_are_read_as_hyphens (sheet_name : string) :
  convert_sheet_name_to_date (PyStr.replace "." "-" sheet_name) =
  convert_sheet_name_to_date sheet_name.
Proof.
  unfold convert_sheet_name_to_date. cbv zeta.
  now rewrite strip_of_replaced, replace_dot_twice.
Qed.

End Dots.

(** ** Whitespace around a sheet name *)

Lemma length_append (a b : string) :
  String.length (a ++ b) = String.length a + String.length b.
Proof. induction a as [|x a IH]; simpl; [reflexivity|]. now rewrite IH. Qed.

Lemma length_reverse s : String.length (PyStr.reverse s) = String.length s.
Proof.
  induction s as [|a s IH]; [reflexivity|].
  rewrite reverse_cons, length_append, IH. simpl. lia.
Qed.

Lemma reverse_reverse s : PyStr.reverse (PyStr.reverse s) = s.
Proof.
  induction s as [|a s IH]; [reflexivity|].
  rewrite reverse_cons, reverse_append, IH. reflexivity.
Qed.

Lemma drop_is_suffix n s : exists y, s = y ++ PyStr.drop n s.
Proof.
  revert s; induction n as [|n IH]; intros s.
  - exists "". now destruct s.
  - destruct s as [|a s]; [exists ""; reflexivity|].
    destruct (IH s) as (y & Hy). exists (String a y). simpl. now rewrite <- Hy.
Qed.

Lemma length_drop n s :
  String.length (PyStr.drop n s) = String.length s - n.
Proof.
  revert s; induction n as [|n IH]; intros [|a s]; simpl; auto.
Qed.

Lemma prefix_length p s :
  prefix p s = true -> String.length p <= String.length s.
Proof.
  revert s; induction p as [|a p IH]; intros s; simpl; [lia|].
  destruct s as [|b s]; [discriminate|]. rewrite prefix_cons.
  destruct (ascii_dec a b); [|discriminate].
  intros Hp. specialize (IH s Hp). simpl. lia.
Qed.

Section Stripping.

Variable seqs : list string.
Hypothesis Hnonempty : forallb (fun w => 0 <? String.length w) seqs = true.

Lemma drop_one_shorter s s' :
  PyStr.drop_one seqs s = Some s' -> String.length s' < String.length s.
Proof.
  clear -Hnonempty. induction seqs as [|w ws IH]; simpl; [discriminate|].
  simpl in Hnonempty. apply andb_true_iff in Hnonempty as [Hw Hws].
  apply Nat.ltb_lt in Hw.
  destruct (prefix w s) eqn:Hprefix.
  - intros [= <-]. apply prefix_length in Hprefix.
    rewrite length_drop. lia.
  - now apply IH.
Qed.

Lemma drop_one_suffix s s' :
  PyStr.drop_one seqs s = Some s' -> exists y, s = y ++ s'.
Proof.
  clear. induction seqs as [|w ws IH]; simpl; [discriminate|].
  destruct (prefix w s).
  - intros [= <-]. apply drop_is_suffix.
  - exact IH.
Qed.

Lemma drop_all_suffix fuel s :
  exists y, s = y ++ PyStr.drop_all fuel seqs s.
Proof.
  revert s; induction fuel as [|fuel IH]; intros s; simpl.
  - now exists "".
  - destruct (PyStr.drop_one seqs s) as [s'|] eqn:Hone; [|now exists ""].
    destruct (drop_one_suffix s s' Hone) as (y & ->).
    destruct (IH s') as (z & Hz).
    exists (y ++ z). rewrite append_assoc. now rewrite <- Hz.
Qed.

Lemma drop_all_done fuel s :
  String.length s <= fuel ->
  PyStr.drop_one seqs (PyStr.drop_all fuel seqs s) = None.
Proof.
  revert s; induction fuel as [|fuel IH]; intros s Hlen; simpl.
  - destruct s as [|a s]; [|simpl in Hlen; lia].
    clear -Hnonempty. induction seqs as [|w ws IHw]; simpl; [reflexivity|].
    simpl in Hnonempty. apply andb_true_iff in Hnonempty as [Hw Hws].
    destruct w as [|b w]; [discriminate|]. simpl. now apply IHw.
  - destruct (PyStr.drop_one seqs s) as [s'|] eqn:Hone; [|exact Hone].
    apply IH. apply drop_one_shorter in Hone. lia.
Qed.

Lemma drop_all_fixed fuel s :
  PyStr.drop_one seqs s = None -> PyStr.drop_all fuel seqs s = s.
Proof. intros Hnone. destruct fuel; simpl; [reflexivity|now rewrite Hnone]. Qed.

Lemma drop_one_of_prefix s x :
  PyStr.drop_one seqs (s ++ x) = None -> PyStr.drop_one seqs s = None.
Proof.
  clear. induction seqs as [|w ws IH]; simpl; [reflexivity|].
  destruct (prefix w s) eqn:Hprefix.
  - now rewrite (prefix_append w s x Hprefix).
  - destruct (prefix w (s ++ x)); [discriminate|exact IH].
Qed.

End Stripping.

Lemma strip_twice s : PyStr.strip (PyStr.strip s) = PyStr.strip s.
Proof.
  assert (Hws : forallb (fun w => 0 <? String.length w) PyStr.whitespace
                = true) by reflexivity.
  assert (Hrws : forallb (fun w => 0 <? String.length w)
                   (map PyStr.reverse PyStr.whitespace) = true)
    by reflexivity.
  unfold PyStr.strip.
  set (t := PyStr.lstrip s).
  assert (Ht : PyStr.drop_one PyStr.whitespace t = None).
  { apply drop_all_done; [exact Hws|lia]. }
  set (u := PyStr.drop_all (String.length t)
              (map PyStr.reverse PyStr.whitespace) (PyStr.reverse t)).
  assert (Hu : PyStr.drop_one (map PyStr.reverse PyStr.whitespace) u = None).
  { apply drop_all_done; [exact Hrws|]. now rewrite length_reverse. }
  assert (Hv : PyStr.rstrip t = PyStr.reverse u) by reflexivity.
  rewrite Hv.
  assert (Hleft : PyStr.lstrip (PyStr.reverse u) = PyStr.reverse u).
  { unfold PyStr.lstrip. apply drop_all_fixed.
    destruct (drop_all_suffix (map PyStr.reverse PyStr.whitespace)
                (String.length t) (PyStr.reverse t)) as (y & Hy).
    fold u in Hy.
    apply (drop_one_of_prefix PyStr.whitespace (PyStr.reverse u)
                              (PyStr.reverse y)).
    rewrite <- reverse_append, <- Hy, reverse_reverse. exact Ht. }
  rewrite Hleft. unfold PyStr.rstrip.
  rewrite reverse_reverse. now rewrite drop_all_fixed.
Qed.

Section Whitespace.

Context `{Dateutil}.

(** Whatever the parser, white space before or after a sheet name does not
    change the derived date: the name and the name already trimmed give the
    same result, and so does the name with the clean-up of the function
    already applied. *)
Theorem surrounding_whitespace_is_ignored (sheet_name : string) :
  convert_sheet_name_to_date (PyStr.strip sheet_name) =
    convert_sheet_name_to_date sheet_name
  /\ convert_sheet_name_to_date
       (PyStr.replace "." "-" (PyStr.strip sheet_name)) =
     convert_sheet_name_to_date sheet_name.
Proof.
  unfold convert_sheet_name_to_date. cbv zeta. split.
  - now rewrite strip_twice.
  - now rewrite strip_of_replaced, strip_twice, replace_dot_twice.
Qed.

End Whitespace.

(** ** A sheet without a terminator row *)

Section NoTerminator.

Context `{Dateutil}.

(** A sheet in which the header marker and the Sample column are found but
    no total or summary row: if no row below the header has data in the
    span, it is skipped with the line that the end of the data could not be
    determined; if some row has, the sheet is lost with the error line of
    the failed comparison.  Either way no table comes back. *)
Theorem sheet_without_terminator
  (file_path : ExcelFile) (sheet_name : string) (df : DataFrame)
  (header_row start_col end_col : nat) :
  rectangular df ->
  read_excel file_path sheet_name = Ok df ->
  find_header_row df = Ok (Some (header_row, start_col)) ->
  find_end_col df header_row start_col = Ok (Some end_col) ->
  find_total_row df header_row start_col end_col = Ok None ->
  ((forall r, header_row < r < len df ->
              ~ has_data df r start_col end_col) ->
   process_sheet file_path sheet_name =
   ("    ⚠ Skipped: Could not determine end of data (no 'Total'/'Summary' and no data rows)",
    None))
  /\ ((exists r, header_row < r < len df
                 /\ has_data df r start_col end_col) ->
      process_sheet file_path sheet_name =
      ("    ✗ Error: '>=' not supported between instances of 'int' and 'NoneType'",
       None)).
Proof.
  intros Hrect Hread Hheader Hend Htotal.
  destruct (end_col_bounds _ _ _ _ Hend) as [_ Hcols].
  destruct (find_last_data_row_cases df header_row start_col end_col
              Hrect Hcols) as (found & Hlast & Hspec).
  assert (Hrun : process_sheet file_path sheet_name =
                 match found with
                 | None =>
                     ("    ⚠ Skipped: Could not determine end of data (no 'Total'/'Summary' and no data rows)",
                      None)
                 | Some _ =>
                     ("    ✗ Error: '>=' not supported between instances of 'int' and 'NoneType'",
                      None)
                 end).
  { unfold process_sheet, process_sheet_try.
    rewrite Hread; cbn [bind]. rewrite Hheader; cbn [bind].
    rewrite Hend; cbn [bind]. rewrite Htotal; cbn [bind].
    rewrite Hlast; cbn [bind]. now destruct found. }
  rewrite Hrun. destruct found as [L|]; split.
  - intros Hblank. exfalso.
    destruct Hspec as (F & HF & HL & _ & Hdata & _).
    apply (Hblank L); [lia|]. apply Hdata. lia.
  - reflexivity.
  - reflexivity.
  - intros (r & Hr & Hdata). exfalso. exact (Hspec r Hr Hdata).
Qed.

End NoTerminator.

Lemma sheet_without_terminator_witness :
  process_sheet (Sample.book "a.xlsx" "28-10-25" Sample.two_blocks)
                "28-10-25" =
  ("    ✗ Error: '>=' not supported between instances of 'int' and 'NoneType'",
   None).
Proof.
  assert (Hrect : rectangular Sample.two_blocks) by (repeat constructor).
  apply (proj2 (sheet_without_terminator
                  (Sample.book "a.xlsx" "28-10-25" Sample.two_blocks)
                  "28-10-25" Sample.two_blocks 0 0 2
                  Hrect eq_refl eq_refl eq_refl eq_refl)).
  exists 2. split; [unfold len; simpl; lia|].
  exists 0, (Int 1). split; [lia|]. split; reflexivity.
Defined.

(** ** The day of the run *)

Lemma plain_digits d : plain (NilEmpty.string_of_uint d) = true.
Proof. induction d; simpl; auto. Qed.

Lemma plain_of_nat n : plain (PyStr.of_nat n) = true.
Proof.
  unfold PyStr.of_nat, NilZero.string_of_uint.
  destruct (Nat.to_uint n) eqn:E; try reflexivity;
    rewrite <- E; apply plain_digits.
Qed.

Lemma plain_append a b : plain (a ++ b) = plain a && plain b.
Proof.
  induction a as [|c a IH]; simpl; [reflexivity|].
  rewrite IH. now rewrite !andb_assoc.
Qed.

Lemma plain_zfill w s : plain s = true -> plain (PyStr.zfill w s) = true.
Proof.
  intros Hs. unfold PyStr.zfill. rewrite plain_append, Hs, andb_true_r.
  induction (w - String.length s) as [|k IH]; simpl; auto.
Qed.

Lemma split_at_hyphen a b x y :
  plain a = true -> plain b = true ->
  a ++ "-" ++ x = b ++ "-" ++ y -> a = b /\ x = y.
Proof.
  revert b; induction a as [|c a IH]; intros [|d b] Ha Hb Heq; simpl in *.
  - injection Heq as ->. auto.
  - injection Heq as <- _. simpl in Hb. discriminate.
  - injection Heq as -> _. simpl in Ha. discriminate.
  - injection Heq as -> Heq.
    apply andb_true_iff in Ha as [_ Ha]. apply andb_true_iff in Hb as [_ Hb].
    destruct (IH b Ha Hb Heq) as [-> ->]. auto.
Qed.

Lemma to_uint_normal n : unorm (Nat.to_uint n) = Nat.to_uint n.
Proof.
  rewrite <- DecimalNat.Unsigned.to_of.
  now rewrite DecimalNat.Unsigned.of_to.
Qed.

Lemma to_uint_nonnil n : Nat.to_uint n <> Nil.
Proof. rewrite <- to_uint_normal. apply DecimalFacts.unorm_nonnil. Qed.

Lemma of_nat_inj a b : PyStr.of_nat a = PyStr.of_nat b -> a = b.
Proof.
  unfold PyStr.of_nat. intros Heq.
  apply DecimalNat.Unsigned.to_uint_inj.
  pose proof (NilZero.usu _ (to_uint_nonnil a)) as Ha.
  pose proof (NilZero.usu _ (to_uint_nonnil b)) as Hb.
  rewrite Heq in Ha. congruence.
Qed.

Lemma of_nat_nonempty n : PyStr.of_nat n <> "".
Proof.
  unfold PyStr.of_nat, NilZero.string_of_uint.
  pose proof (to_uint_nonnil n).
  destruct (Nat.to_uint n); simpl; congruence.
Qed.

(** A number is printed without a leading zero, zero itself apart. *)
Lemma of_nat_leading_zero n r : PyStr.of_nat n = String "0" r -> r = "".
Proof.
  unfold PyStr.of_nat, NilZero.string_of_uint.
  pose proof (to_uint_normal n) as Hnorm.
  destruct (Nat.to_uint n) as [|u|u|u|u|u|u|u|u|u|u]; simpl;
    try discriminate.
  intros Heq. injection Heq as <-.
  rewrite DecimalFacts.unorm_D0 in Hnorm. unfold unorm in Hnorm.
  destruct (nzhead u) eqn:Hhead; try discriminate.
  - injection Hnorm as <-. reflexivity.
  - exfalso. apply (DecimalFacts.nzhead_nonzero u u0). congruence.
Qed.

Lemma zfill_two_inj a b :
  PyStr.zfill 2 (PyStr.of_nat a) = PyStr.zfill 2 (PyStr.of_nat b) -> a = b.
Proof.
  intros Heq. apply of_nat_inj.
  pose proof (of_nat_nonempty a) as Ha.
  pose proof (of_nat_nonempty b) as Hb.
  pose proof (of_nat_leading_zero a) as Hza.
  pose proof (of_nat_leading_zero b) as Hzb.
  unfold PyStr.zfill in Heq.
  destruct (PyStr.of_nat a) as [|a1 [|a2 ra]],
           (PyStr.of_nat b) as [|b1 [|b2 rb]];
    simpl in Heq; try congruence.
  - injection Heq as Hhead _ _. subst b1.
    specialize (Hzb _ eq_refl). discriminate.
  - injection Heq as Hhead _ _. subst a1.
    specialize (Hza _ eq_refl). discriminate.
Qed.

(** Two dates that print alike are the same date. *)
Lemma strftime_ymd_inj d1 d2 : strftime_ymd d1 = strftime_ymd d2 -> d1 = d2.
Proof.
  destruct d1 as [y1 m1 dd1], d2 as [y2 m2 dd2].
  unfold strftime_ymd; cbn [year month day]. intros Heq.
  apply split_at_hyphen in Heq as [Hy Heq]; try apply plain_of_nat.
  apply split_at_hyphen in Heq as [Hm Hd];
    try (apply plain_zfill; apply plain_of_nat).
  apply of_nat_inj in Hy. apply zfill_two_inj in Hm, Hd. congruence.
Qed.

(** C10.  Take the library on two days, and a sheet name whose cleaned text
    it reads, on either day, as the fields the text names put in place of
    those of that day, which is how its documentation describes a call
    without a default.  The date deriver then returns that day's filled-in
    date on each day.  If the text leaves open a field in which the two days
    differ, the two runs return different strings for the same sheet name;
    if the text names year, month and day, they return the same string. *)
Theorem derived_date_depends_on_the_day
  (library : datetime -> Dateutil) (sheet_name : string) (read : fields)
  (day1 day2 : datetime) :
  @parser_parse (library day1)
    (PyStr.replace "." "-" (PyStr.strip sheet_name)) true =
    Ok (fill day1 read) ->
  @parser_parse (library day2)
    (PyStr.replace "." "-" (PyStr.strip sheet_name)) true =
    Ok (fill day2 read) ->
  convert_sheet_name_to_date (H := library day1) sheet_name =
    strftime_ymd (fill day1 read)
  /\ convert_sheet_name_to_date (H := library day2) sheet_name =
       strftime_ymd (fill day2 read)
  /\ ((given_year read = None /\ year day1 <> year day2)
      \/ (given_month read = None /\ month day1 <> month day2)
      \/ (given_day read = None /\ day day1 <> day day2) ->
      convert_sheet_name_to_date (H := library day1) sheet_name <>
      convert_sheet_name_to_date (H := library day2) sheet_name)
  /\ (given_year read <> None -> given_month read <> None ->
      given_day read <> None ->
      convert_sheet_name_to_date (H := library day1) sheet_name =
      convert_sheet_name_to_date (H := library day2) sheet_name).
Proof.
  intros Hfirst Hsecond.
  assert (H1 : convert_sheet_name_to_date (H := library day1) sheet_name =
               strftime_ymd (fill day1 read)).
  { unfold convert_sheet_name_to_date. cbv zeta. now rewrite Hfirst. }
  assert (H2 : convert_sheet_name_to_date (H := library day2) sheet_name =
               strftime_ymd (fill day2 read)).
  { unfold convert_sheet_name_to_date. cbv zeta. now rewrite Hsecond. }
  split; [exact H1|]. split; [exact H2|]. rewrite H1, H2. split.
  - intros Hopen Heq. apply strftime_ymd_inj in Heq.
    unfold fill in Heq. injection Heq as Hy Hm Hd.
    destruct Hopen as [[Hnone Hne]|[[Hnone Hne]|[Hnone Hne]]];
      rewrite Hnone in *; contradiction.
  - intros Hy Hm Hd. unfold fill.
    destruct (given_year read); [|congruence].
    destruct (given_month read); [|congruence].
    destruct (given_day read); [|congruence].
    reflexivity.
Qed.

Lemma derived_date_depends_on_the_day_witness :
  convert_sheet_name_to_date
    (H := dmy_on {| year := 2025; month := 10; day := 28 |}) "15" =
    "2025-10-15"
  /\ convert_sheet_name_to_date
       (H := dmy_on {| year := 2025; month := 11; day := 4 |}) "15" =
       "2025-11-15"
  /\ convert_sheet_name_to_date
       (H := dmy_on {| year := 2025; month := 10; day := 28 |}) "15" <>
     convert_sheet_name_to_date
       (H := dmy_on {| year := 2025; month := 11; day := 4 |}) "15".
Proof.
  destruct (derived_date_depends_on_the_day dmy_on "15"
              {| given_year := None; given_month := None;
                 given_day := Some 15 |}
              {| year := 2025; month := 10; day := 28 |}
              {| year := 2025; month := 11; day := 4 |}
              eq_refl eq_refl)
    as (Hfirst & Hsecond & Hdiffer & _).
  split; [exact Hfirst|]. split; [exact Hsecond|].
  apply Hdiffer. right. left. split; [reflexivity|]. simpl. discriminate.
Defined.
